(** * GeoTracer: the hop reveal scheduler, the path overlay and the camera loop

    A shallow embedding of [src/components/NetworkMap.tsx].  The React
    component is modelled by explicit state passing over a record holding
    its [useState] cells, its [map] ref, the pending timers and animation
    frames of the browser, and a journal of the effects it has issued. *)

From Stdlib Require Import ZArith QArith Qminmax Ascii String DecimalString.
From stdpp Require Import base gmap strings list.

Local Open Scope string_scope.
Local Open Scope list_scope.
Local Open Scope nat_scope.

(** ** Data model *)

(** A TypeScript [number] that holds a finite value.  Finite doubles are
    rationals and [<] on them is the order of the rationals, so the two
    comparisons of the source are exact here.  Sums are those of the
    rationals, where a double would round. *)
Definition number : Type := Q.

(** [interface NetworkHop]; the field [id] is spelled [hop_id]. *)
Record NetworkHop : Type := {
  hop_id : Z;
  ip : string;
  hostname : string;
  latitude : number;
  longitude : number;
  latency : number;
  country : string;
  city : string
}.

(** [mockTraceroute]: the canned four hop answer, whose last host name is
    the requested target. *)
Definition mockTraceroute (target : string) : list NetworkHop :=
  [ {| hop_id := 1; ip := "192.168.1.1"; hostname := "local-gateway";
       latitude := 40.7128%Q; longitude := (-74.0060)%Q; latency := 1.2%Q;
       country := "USA"; city := "New York" |};
    {| hop_id := 2; ip := "10.0.0.1"; hostname := "isp-router-1";
       latitude := 40.7589%Q; longitude := (-73.9851)%Q; latency := 12.5%Q;
       country := "USA"; city := "New York" |};
    {| hop_id := 3; ip := "72.14.215.85"; hostname := "google-edge";
       latitude := 37.4419%Q; longitude := (-122.1430)%Q; latency := 45.3%Q;
       country := "USA"; city := "Palo Alto" |};
    {| hop_id := 4; ip := "142.250.191.14"; hostname := target;
       latitude := 37.4419%Q; longitude := (-122.1430)%Q; latency := 47.8%Q;
       country := "USA"; city := "Palo Alto" |} ].

(** ** The rendering engine, as far as the component drives it

    Mapbox GL JS is not part of the repository; this module records what
    the component's calls do to the style (sources and layers by id), to
    the marker elements in the document and to the camera.  The style is
    taken to be loaded.  Camera commands are logged as received.  What the
    engine itself refuses (a bounds fit on a box with no point, a marker
    at a latitude beyond 90 degrees) and how its animations move the
    centre over time lie outside this record: the results below that
    speak of the camera speak of the commands issued. *)

Module mapboxgl.

Definition LngLat : Type := (number * number)%type.

(** [LngLatBounds]: [None] is the box no point has been added to yet,
    otherwise the south-west and north-east corners. *)
Definition LngLatBounds : Type := option (LngLat * LngLat).

Definition extend (b : LngLatBounds) (c : LngLat) : LngLatBounds :=
  match b with
  | None => Some (c, c)
  | Some (sw, ne) =>
      Some ((Qmin (fst c) (fst sw), Qmin (snd c) (snd sw)),
            (Qmax (fst c) (fst ne), Qmax (snd c) (snd ne)))
  end.

(** The [div] built for a marker: its class and the two colours the
    style sheet text interpolates. *)
Record HTMLElement : Type := {
  className : string;
  background : string;
  boxShadow : string
}.

(** The popup of a marker: the values interpolated into its HTML. *)
Record Popup : Type := {
  offset : Z;
  heading : Z;
  line_hostname : string;
  line_ip : string;
  line_city : string;
  line_country : string;
  span_color : string;
  span_latency : number
}.

Record Marker : Type := {
  element : HTMLElement;
  lngLat : LngLat;
  popup : Popup
}.

(** A line layer: the source it draws and its paint. *)
Record Layer : Type := {
  layer_type : string;
  layer_source : string;
  line_color : string;
  line_width : Z
}.

Inductive CameraCommand : Type :=
| EaseTo (target : LngLat) (duration : Z)
| FitBounds (bounds : LngLatBounds) (padding : Z).

(** The live map: GeoJSON line sources by id (their coordinate lists),
    layers by id, the marker elements attached to the document, the
    camera centre and the camera commands received, oldest first. *)
Record Map : Type := {
  sources : gmap string (list LngLat);
  layers : gmap string Layer;
  markers : list Marker;
  center : LngLat;
  camera : list CameraCommand
}.

(** [new mapboxgl.Map({ ..., center: [0, 20], ... })] *)
Definition create : Map :=
  {| sources := ∅; layers := ∅; markers := []; center := (0%Q, 20%Q);
     camera := [] |}.

(** The same in a document that already holds marker elements: a new map
    has no source and no layer of its own, and nothing removes the
    elements an earlier map has left in the document. *)
Definition createIn (document : list Marker) : Map :=
  {| sources := ∅; layers := ∅; markers := document;
     center := (0%Q, 20%Q); camera := [] |}.

(** What [addSource] does with an id that is taken.  Mapbox GL JS raises
    an [Error]; the development is parametric in the answer, so that no
    result below rests on it. *)
Inductive OnTakenId : Type := Raises | Replaces.

Definition addSource (taken : OnTakenId) (sid : string)
    (coordinates : list LngLat) (m : Map) : string + Map :=
  let put := {| sources := <[sid := coordinates]> (sources m);
                layers := layers m; markers := markers m;
                center := center m; camera := camera m |} in
  match sources m !! sid, taken with
  | Some _, Raises => inl "There is already a source with this ID"
  | _, _ => inr put
  end.

(** [addLayer] keeps the layer that already has the id. *)
Definition addLayer (lid : string) (l : Layer) (m : Map) : Map :=
  match layers m !! lid with
  | Some _ => m
  | None =>
      {| sources := sources m; layers := <[lid := l]> (layers m);
         markers := markers m; center := center m; camera := camera m |}
  end.

Definition getLayer (lid : string) (m : Map) : option Layer :=
  layers m !! lid.

Definition getSource (sid : string) (m : Map) : option (list LngLat) :=
  sources m !! sid.

Definition removeLayer (lid : string) (m : Map) : Map :=
  {| sources := sources m; layers := delete lid (layers m);
     markers := markers m; center := center m; camera := camera m |}.

Definition removeSource (sid : string) (m : Map) : Map :=
  {| sources := delete sid (sources m); layers := layers m;
     markers := markers m; center := center m; camera := camera m |}.

(** [new mapboxgl.Marker(el).setLngLat(..).setPopup(..).addTo(map)] *)
Definition addMarker (mk : Marker) (m : Map) : Map :=
  {| sources := sources m; layers := layers m;
     markers := markers m ++ [mk]; center := center m;
     camera := camera m |}.

(** [document.querySelectorAll('.hop-marker').forEach(e => e.remove())] *)
Definition removeElementsByClass (cls : string) (m : Map) : Map :=
  {| sources := sources m; layers := layers m;
     markers :=
       filter (λ mk, className (element mk) ≠ cls) (markers m);
     center := center m; camera := camera m |}.

Definition fitBounds (b : LngLatBounds) (padding : Z) (m : Map) : Map :=
  {| sources := sources m; layers := layers m; markers := markers m;
     center := center m; camera := camera m ++ [FitBounds b padding] |}.

(** [easeTo({ center, duration })]; the ease is taken to have landed
    when the centre is read again. *)
Definition easeTo (c : LngLat) (duration : Z) (m : Map) : Map :=
  {| sources := sources m; layers := layers m; markers := markers m;
     center := c; camera := camera m ++ [EaseTo c duration] |}.

(** The overlay primitives: path sources, layers and markers. *)
Definition overlay (m : Map)
    : gmap string (list LngLat) * gmap string Layer * list Marker :=
  (sources m, layers m, markers m).

End mapboxgl.


(** ** Comparisons and colours *)

(** The JavaScript [a < b] on finite numbers. *)
Definition lessThan (a b : number) : bool :=
  (Qnum a * Z.pos (Qden b) <? Qnum b * Z.pos (Qden a))%Z.

(** The ternary of the marker style sheet, written twice in the source
    (background and glow):
    [index === 0 ? '#00ff00' : index === hopData.length - 1 ? '#ff0040' : '#00ffff'] *)
Definition markerColor (index length : nat) : string :=
  if (Z.of_nat index =? 0)%Z then "#00ff00"
  else if (Z.of_nat index =? Z.of_nat length - 1)%Z then "#ff0040"
  else "#00ffff".

(** The ternary of the popup's latency [span]. *)
Definition popupLatencyColor (l : number) : string :=
  if lessThan l 20%Q then "#00ff00"
  else if lessThan l 100%Q then "#ffff00"
  else "#ff0040".

(** [getLatencyColor], used by the hop details panel. *)
Definition getLatencyColor (l : number) : string :=
  if lessThan l 20%Q then "text-latency-good"
  else if lessThan l 100%Q then "text-latency-warning"
  else "text-latency-error".

(** The body of [hopData.forEach((hop, index) => ...)]. *)
Definition hopMarker (length index : nat) (hop : NetworkHop)
    : mapboxgl.Marker :=
  {| mapboxgl.element :=
       {| mapboxgl.className := "hop-marker";
          mapboxgl.background := markerColor index length;
          mapboxgl.boxShadow := markerColor index length |};
     mapboxgl.lngLat := (longitude hop, latitude hop);
     mapboxgl.popup :=
       {| mapboxgl.offset := 25;
          mapboxgl.heading := hop_id hop;
          mapboxgl.line_hostname := hostname hop;
          mapboxgl.line_ip := ip hop;
          mapboxgl.line_city := city hop;
          mapboxgl.line_country := country hop;
          mapboxgl.span_color := popupLatencyColor (latency hop);
          mapboxgl.span_latency := latency hop |} |}.

Definition hopMarkers (hopData : list NetworkHop) : list mapboxgl.Marker :=
  imap (hopMarker (length hopData)) hopData.

Definition coordinatesOf (hopData : list NetworkHop) : list mapboxgl.LngLat :=
  (λ hop, (longitude hop, latitude hop)) <$> hopData.

Definition pathLineLayer : mapboxgl.Layer :=
  {| mapboxgl.layer_type := "line";
     mapboxgl.layer_source := "network-path";
     mapboxgl.line_color := "#00ffff";
     mapboxgl.line_width := 3 |}.

(** ** The component *)

Record Toast : Type := {
  title : string;
  description : string;
  destructive : bool
}.

(** What an [executeTraceroute] call suspended at its [await] remembers:
    its hop array, its loop counter and the [targetHost] of its render. *)
Record Reveal : Type := {
  mockHops : list NetworkHop;
  index : nat;
  seen_targetHost : string
}.

(** The closure [rotateCamera]: it reads the [isTracing] of the render in
    which [initializeMap] ran, a constant of that closure. *)
Record RotateCamera : Type := {
  seen_isTracing : bool
}.

(** The journal records every effect the component issues, with the
    time of the virtual clock (milliseconds) at which it was issued. *)
Inductive Effect : Type :=
| SetIsTracing (b : bool)
| SetHops (l : list NetworkHop)
| AppendHop (h : NetworkHop)
| ShowToast (t : Toast)
| ClearNetworkPath
| AddNetworkPath (l : list NetworkHop)
| FetchHops (target : string)
| SetTimeout (ms : N)
| Rejected (e : string).

Record State : Type := {
  mapContainer : bool;
  accessToken : string;
  map_current : option mapboxgl.Map;
  targetHost : string;
  isTracing : bool;
  hops : list NetworkHop;
  clock : N;
  timers : list (N * Reveal);
  frames : list RotateCamera;
  journal : list (N * Effect)
}.

(** The component right after it has been mounted. *)
Definition mounted : State :=
  {| mapContainer := true; accessToken := ""; map_current := None;
     targetHost := "google.com"; isTracing := false; hops := [];
     clock := 0; timers := []; frames := []; journal := [] |}.

Definition set_accessToken (v : string) (w : State) : State :=
  {| mapContainer := mapContainer w; accessToken := v;
     map_current := map_current w; targetHost := targetHost w;
     isTracing := isTracing w; hops := hops w; clock := clock w;
     timers := timers w; frames := frames w; journal := journal w |}.

Definition set_map (v : option mapboxgl.Map) (w : State) : State :=
  {| mapContainer := mapContainer w; accessToken := accessToken w;
     map_current := v; targetHost := targetHost w;
     isTracing := isTracing w; hops := hops w; clock := clock w;
     timers := timers w; frames := frames w; journal := journal w |}.

Definition set_targetHost (v : string) (w : State) : State :=
  {| mapContainer := mapContainer w; accessToken := accessToken w;
     map_current := map_current w; targetHost := v;
     isTracing := isTracing w; hops := hops w; clock := clock w;
     timers := timers w; frames := frames w; journal := journal w |}.

Definition set_isTracing (v : bool) (w : State) : State :=
  {| mapContainer := mapContainer w; accessToken := accessToken w;
     map_current := map_current w; targetHost := targetHost w;
     isTracing := v; hops := hops w; clock := clock w;
     timers := timers w; frames := frames w; journal := journal w |}.

Definition set_hops (v : list NetworkHop) (w : State) : State :=
  {| mapContainer := mapContainer w; accessToken := accessToken w;
     map_current := map_current w; targetHost := targetHost w;
     isTracing := isTracing w; hops := v; clock := clock w;
     timers := timers w; frames := frames w; journal := journal w |}.

Definition set_clock (v : N) (w : State) : State :=
  {| mapContainer := mapContainer w; accessToken := accessToken w;
     map_current := map_current w; targetHost := targetHost w;
     isTracing := isTracing w; hops := hops w; clock := v;
     timers := timers w; frames := frames w; journal := journal w |}.

Definition set_timers (v : list (N * Reveal)) (w : State) : State :=
  {| mapContainer := mapContainer w; accessToken := accessToken w;
     map_current := map_current w; targetHost := targetHost w;
     isTracing := isTracing w; hops := hops w; clock := clock w;
     timers := v; frames := frames w; journal := journal w |}.

Definition set_frames (v : list RotateCamera) (w : State) : State :=
  {| mapContainer := mapContainer w; accessToken := accessToken w;
     map_current := map_current w; targetHost := targetHost w;
     isTracing := isTracing w; hops := hops w; clock := clock w;
     timers := timers w; frames := v; journal := journal w |}.

(** Append an effect to the journal, stamped with the current time. *)
Definition note (e : Effect) (w : State) : State :=
  {| mapContainer := mapContainer w; accessToken := accessToken w;
     map_current := map_current w; targetHost := targetHost w;
     isTracing := isTracing w; hops := hops w; clock := clock w;
     timers := timers w; frames := frames w;
     journal := journal w ++ [(clock w, e)] |}.

(** How a call ends: it returns, or an exception escapes it; either way
    with the state it has reached. *)
Inductive Completion : Type :=
| Normal (w : State)
| Throw (e : string) (w : State).

Definition stateOf (c : Completion) : State :=
  match c with Normal w => w | Throw _ w => w end.

(** [String.prototype.trim].  A string is the sequence of its UTF-8
    bytes.  The code points [trim] strips are U+0009 to U+000D and U+0020
    (one byte each), U+00A0 (two bytes), and U+1680, U+2000 to U+200A,
    U+2028, U+2029, U+202F, U+205F, U+3000 and U+FEFF (three bytes
    each). *)
Definition isWhiteSpace (c : ascii) : bool :=
  let n := nat_of_ascii c in
  Nat.eqb n 9 || Nat.eqb n 10 || Nat.eqb n 11 || Nat.eqb n 12
  || Nat.eqb n 13 || Nat.eqb n 32.

Definition isWhiteSpace2 (a b : ascii) : bool :=
  Nat.eqb (nat_of_ascii a) 194 && Nat.eqb (nat_of_ascii b) 160.

Definition isWhiteSpace3 (a b c : ascii) : bool :=
  let x := nat_of_ascii a in
  let y := nat_of_ascii b in
  let z := nat_of_ascii c in
  (Nat.eqb x 225 && Nat.eqb y 154 && Nat.eqb z 128)
  || (Nat.eqb x 226 && Nat.eqb y 128
      && ((Nat.leb 128 z && Nat.leb z 138) || Nat.eqb z 168 || Nat.eqb z 169
          || Nat.eqb z 175))
  || (Nat.eqb x 226 && Nat.eqb y 129 && Nat.eqb z 159)
  || (Nat.eqb x 227 && Nat.eqb y 128 && Nat.eqb z 128)
  || (Nat.eqb x 239 && Nat.eqb y 187 && Nat.eqb z 191).

Fixpoint trimStart (s : string) : string :=
  match s with
  | EmptyString => EmptyString
  | String a r =>
      if isWhiteSpace a then trimStart r
      else
        match r with
        | EmptyString => s
        | String b r' =>
            if isWhiteSpace2 a b then trimStart r'
            else
              match r' with
              | EmptyString => s
              | String c r'' =>
                  if isWhiteSpace3 a b c then trimStart r'' else s
              end
        end
  end.

(** The same from the end, on the bytes in reverse order. *)
Fixpoint trimEndReversed (s : string) : string :=
  match s with
  | EmptyString => EmptyString
  | String c r =>
      if isWhiteSpace c then trimEndReversed r
      else
        match r with
        | EmptyString => s
        | String b r' =>
            if isWhiteSpace2 b c then trimEndReversed r'
            else
              match r' with
              | EmptyString => s
              | String a r'' =>
                  if isWhiteSpace3 a b c then trimEndReversed r'' else s
              end
        end
  end.

Definition trim (s : string) : string :=
  String.rev (trimEndReversed (String.rev (trimStart s))).

(** Truthiness of a string: the empty string is the only false one. *)
Definition truthy (s : string) : bool :=
  match s with EmptyString => false | String _ _ => true end.

(** [String(n)] for a length. *)
Definition toString (n : nat) : string :=
  NilEmpty.string_of_uint (Nat.to_uint n).

Section Component.

(** The engine's answer to a taken source id, and the hop data source
    ([mockTraceroute] in the program as it stands). *)
Variable taken : mapboxgl.OnTakenId.
Variable fetchHops : string → list NetworkHop.

Definition toast (t : Toast) (w : State) : State :=
  note (ShowToast t) w.

Definition setIsTracing (b : bool) (w : State) : State :=
  note (SetIsTracing b) (set_isTracing b w).

Definition setHops (l : list NetworkHop) (w : State) : State :=
  note (SetHops l) (set_hops l w).

(** [setHops(prev => [...prev, h])] *)
Definition appendHop (h : NetworkHop) (w : State) : State :=
  note (AppendHop h) (set_hops (hops w ++ [h]) w).

Definition addNetworkPath (hopData : list NetworkHop) (w : State)
    : Completion :=
  let w := note (AddNetworkPath hopData) w in
  match map_current w with
  | None => Normal w
  | Some m =>
      let coordinates := coordinatesOf hopData in
      match mapboxgl.addSource taken "network-path" coordinates m with
      | inl e => Throw e w
      | inr m =>
          let m := mapboxgl.addLayer "network-path-line" pathLineLayer m in
          let m :=
            foldl (λ m mk, mapboxgl.addMarker mk m) m (hopMarkers hopData) in
          let bounds := foldl mapboxgl.extend None coordinates in
          Normal (set_map (Some (mapboxgl.fitBounds bounds 100 m)) w)
      end
  end.

Definition clearNetworkPath (w : State) : State :=
  let w := note ClearNetworkPath w in
  match map_current w with
  | None => w
  | Some m =>
      let m :=
        match mapboxgl.getLayer "network-path-line" m with
        | Some _ => mapboxgl.removeLayer "network-path-line" m
        | None => m
        end in
      let m :=
        match mapboxgl.getSource "network-path" m with
        | Some _ => mapboxgl.removeSource "network-path" m
        | None => m
        end in
      set_map (Some (mapboxgl.removeElementsByClass "hop-marker" m)) w
  end.

(** *** Timers and animation frames *)

(** Pending timers are kept by due time, first in first out. *)
Fixpoint enqueue (due : N) (k : Reveal) (q : list (N * Reveal))
    : list (N * Reveal) :=
  match q with
  | [] => [(due, k)]
  | (d, k') :: q' =>
      if (due <? d)%N then (due, k) :: q else (d, k') :: enqueue due k q'
  end.

(** [await new Promise(resolve => setTimeout(resolve, ms))]: the rest of
    the call, [k], runs when the timer fires. *)
Definition setTimeout (ms : N) (k : Reveal) (w : State) : State :=
  note (SetTimeout ms) (set_timers (enqueue (clock w + ms)%N k (timers w)) w).

Definition requestAnimationFrame (cb : RotateCamera) (w : State) : State :=
  set_frames (frames w ++ [cb]) w.

(** *** [executeTraceroute], cut at its [await] *)

(** After the loop: draw, publish, complete.  An exception escaping
    [addNetworkPath] rejects the call and skips the rest. *)
Definition finishTrace (k : Reveal) (w : State) : State :=
  match addNetworkPath (mockHops k) w with
  | Throw e w => note (Rejected e) w
  | Normal w =>
      let w := setHops (mockHops k) w in
      let w := setIsTracing false w in
      toast {| title := "Traceroute complete";
               description :=
                 "Found " +:+ toString (length (mockHops k)) +:+
                 " hops to " +:+ seen_targetHost k;
               destructive := false |} w
  end.

(** The loop test [i < mockHops.length]: wait a second, or leave. *)
Definition revealLoop (k : Reveal) (w : State) : State :=
  if (index k <? length (mockHops k))%nat then setTimeout 1000 k w
  else finishTrace k w.

(** The loop body after the [await], then [i++] and the test again.  A
    timer is only ever set after the loop test, so [mockHops[i]] is in
    range when the body runs. *)
Definition resumeReveal (k : Reveal) (w : State) : State :=
  let w :=
    match mockHops k !! index k with
    | Some hop => appendHop hop w
    | None => w
    end in
  revealLoop {| mockHops := mockHops k; index := S (index k);
                seen_targetHost := seen_targetHost k |} w.

Definition executeTraceroute (w : State) : State :=
  match map_current w with
  | None =>
      toast {| title := "Map not ready";
               description := "Please enter your Mapbox token first";
               destructive := true |} w
  | Some _ =>
      let w := setIsTracing true w in
      let w := clearNetworkPath w in
      let w := toast {| title := "Tracing route...";
                        description :=
                          "Starting traceroute to " +:+ targetHost w;
                        destructive := false |} w in
      let w := note (FetchHops (targetHost w)) w in
      let mockHops := fetchHops (targetHost w) in
      let w := setHops [] w in
      revealLoop {| mockHops := mockHops; index := 0;
                    seen_targetHost := targetHost w |} w
  end.

(** The "Trace Route" button: [disabled={isTracing || !targetHost.trim()}]. *)
Definition traceDisabled (w : State) : bool :=
  isTracing w || negb (truthy (trim (targetHost w))).

Definition clickTraceRoute (w : State) : State :=
  if traceDisabled w then w else executeTraceroute w.

(** *** The camera loop *)

Definition rotateCamera (self : RotateCamera) (w : State) : State :=
  match map_current w with
  | None => w
  | Some m =>
      if seen_isTracing self then w
      else
        let center := mapboxgl.center m in
        let center := (fst center + 0.1, snd center)%Q in
        let w := set_map (Some (mapboxgl.easeTo center 100 m)) w in
        requestAnimationFrame self w
  end.

Definition initializeMap (token : string) (w : State) : State :=
  if negb (mapContainer w) then w
  else
    let self := {| seen_isTracing := isTracing w |} in
    let document :=
      match map_current w with
      | Some m => mapboxgl.markers m
      | None => []
      end in
    let w := set_accessToken token w in
    let w := set_map (Some (mapboxgl.createIn document)) w in
    rotateCamera self w.

(** *** The browser's turns *)

(** The earliest pending timer fires. *)
Definition fireTimer (w : State) : State :=
  match timers w with
  | [] => w
  | (due, k) :: q =>
      resumeReveal k (set_clock (N.max (clock w) due) (set_timers q w))
  end.

(** An animation frame: the callbacks requested so far run once each. *)
Definition animationFrame (w : State) : State :=
  foldl (λ w cb, rotateCamera cb w) (set_frames [] w) (frames w).

Fixpoint fireTimers (n : nat) (w : State) : State :=
  match n with
  | 0 => w
  | S n => fireTimers n (fireTimer w)
  end.

End Component.

(** ** What is drawn *)

(** [document.querySelectorAll('.hop-marker')] *)
Definition hopMarkerElements (m : mapboxgl.Map) : list mapboxgl.Marker :=
  filter (λ mk, mapboxgl.className (mapboxgl.element mk) = "hop-marker")
         (mapboxgl.markers m).

(** The path overlay: the geometry of the path source, the path line
    layer, and the hop markers in document order. *)
Definition pathOverlay (m : mapboxgl.Map)
    : option (list mapboxgl.LngLat) * option mapboxgl.Layer
      * list mapboxgl.Marker :=
  (mapboxgl.sources m !! "network-path",
   mapboxgl.layers m !! "network-path-line",
   hopMarkerElements m).

(** The journal entries of revealing the hops [l] from time [t] on: a one
    second timer, then the append when it fires. *)
Fixpoint revealEntries (t : N) (l : list NetworkHop)
    : list (N * Effect) :=
  match l with
  | [] => []
  | h :: l' =>
      (t, SetTimeout 1000) :: ((t + 1000)%N, AppendHop h)
        :: revealEntries (t + 1000)%N l'
  end.

(** The state reached by revealing the hops [l] one after the other. *)
Fixpoint revealed (l : list NetworkHop) (w : State) : State :=
  match l with
  | [] => w
  | h :: l' =>
      revealed l'
        (appendHop h (set_clock (clock w + 1000)%N (note (SetTimeout 1000) w)))
  end.

(** The component with the token "pk.demo" entered, at rest. *)
Definition ready : State := initializeMap "pk.demo" mounted.

(** The doubles that the literals [19.9] and [99.9] denote. *)
Definition double_19_9 : number := 2800676018271027 # 140737488355328.
Definition double_99_9 : number := 3514918771674317 # 35184372088832.

(** The map with the path overlay taken off, and with the path of
    [hopData] put on: the closed forms of what [clearNetworkPath] and a
    successful [addNetworkPath] leave in [map.current]. *)
Definition cleared (m : mapboxgl.Map) : mapboxgl.Map :=
  {| mapboxgl.sources := delete "network-path" (mapboxgl.sources m);
     mapboxgl.layers := delete "network-path-line" (mapboxgl.layers m);
     mapboxgl.markers :=
       filter (λ mk, mapboxgl.className (mapboxgl.element mk) ≠ "hop-marker")
              (mapboxgl.markers m);
     mapboxgl.center := mapboxgl.center m;
     mapboxgl.camera := mapboxgl.camera m |}.

Definition drawn (hopData : list NetworkHop) (m : mapboxgl.Map)
    : mapboxgl.Map :=
  {| mapboxgl.sources :=
       <["network-path" := coordinatesOf hopData]> (mapboxgl.sources m);
     mapboxgl.layers :=
       mapboxgl.layers (mapboxgl.addLayer "network-path-line" pathLineLayer m);
     mapboxgl.markers := mapboxgl.markers m ++ hopMarkers hopData;
     mapboxgl.center := mapboxgl.center m;
     mapboxgl.camera :=
       mapboxgl.camera m
       ++ [mapboxgl.FitBounds
             (foldl mapboxgl.extend None (coordinatesOf hopData)) 100] |}.

(** Observations used in the statements below. *)
Definition threw (c : Completion) : bool :=
  match c with Throw _ _ => true | Normal _ => false end.

Definition styleOf (mk : mapboxgl.Marker) : string * string :=
  (mapboxgl.background (mapboxgl.element mk),
   mapboxgl.boxShadow (mapboxgl.element mk)).

Definition hopMarkerCount (w : State) : nat :=
  match map_current w with
  | Some m => length (hopMarkerElements m)
  | None => 0
  end.

Definition demoHops : list NetworkHop := mockTraceroute "example.com".

(** The map that [ready] holds: created, and eased once by the camera
    loop. *)
Definition readyMap : mapboxgl.Map :=
  mapboxgl.easeTo (0 + 0.1, 20)%Q 100 mapboxgl.create.

(** The state in which [executeTraceroute] reaches its loop, when the map
    is there: tracing, overlay cleared, start toast shown, hops reset. *)
Definition started (w : State) : State :=
  setHops []
    (note (FetchHops (targetHost w))
       (toast {| title := "Tracing route...";
                 description := "Starting traceroute to " +:+ targetHost w;
                 destructive := false |}
          (clearNetworkPath (setIsTracing true w)))).

(** A whole trace: [executeTraceroute], then one timer per hop. *)
Definition traceRun (taken : mapboxgl.OnTakenId)
    (fetchHops : string → list NetworkHop) (w : State) : State :=
  fireTimers taken (length (fetchHops (targetHost w)))
             (executeTraceroute taken fetchHops w).




(** A trace just started on [ready]. *)
Definition tracing : State :=
  executeTraceroute mapboxgl.Raises mockTraceroute ready.

(** ** The rest of the component *)

(** [handleTokenSubmit]; [currentTokenInput] is the state cell as the
    render the handler belongs to has it. *)
Definition handleTokenSubmit (currentTokenInput : string) (w : State)
    : State :=
  if truthy (trim currentTokenInput) then
    toast {| title := "Map initialized";
             description := "You can now start tracing network routes!";
             destructive := false |}
          (initializeMap (trim currentTokenInput) w)
  else w.

(** One card of the hop details panel. *)
Record HopCard : Type := {
  card_key : Z;
  card_hop : Z;
  card_latency_class : string;
  card_latency : number;
  card_ip : string;
  card_hostname : string;
  card_city : string;
  card_country : string
}.

Definition hopCard (hop : NetworkHop) : HopCard :=
  {| card_key := hop_id hop;
     card_hop := hop_id hop;
     card_latency_class := getLatencyColor (latency hop);
     card_latency := latency hop;
     card_ip := ip hop;
     card_hostname := hostname hop;
     card_city := city hop;
     card_country := country hop |}.

(** What the JSX of one render shows: which of its conditional blocks are
    there, and the attributes that depend on the state. *)
Record View : Type := {
  tokenForm : bool;
  traceControls : bool;
  targetInputDisabled : bool;
  traceButtonDisabled : bool;
  traceButtonLabel : string;
  tokenRequiredCard : bool;
  hopPanel : option (list HopCard)
}.

(** Truthiness of the optional prop [mapboxToken] and of [map.current]. *)
Definition truthyProp (mapboxToken : option string) : bool :=
  match mapboxToken with Some s => truthy s | None => false end.

Definition truthyRef (r : option mapboxgl.Map) : bool :=
  match r with Some _ => true | None => false end.

Definition render (mapboxToken : option string) (w : State) : View :=
  {| tokenForm :=
       negb (truthyProp mapboxToken) && negb (truthyRef (map_current w));
     traceControls := truthyProp mapboxToken || truthyRef (map_current w);
     targetInputDisabled := isTracing w;
     traceButtonDisabled := traceDisabled w;
     traceButtonLabel := if isTracing w then "Tracing..." else "Trace Route";
     tokenRequiredCard :=
       negb (truthyProp mapboxToken) && negb (truthyRef (map_current w));
     hopPanel :=
       if 0 <? length (hops w) then Some (hopCard <$> hops w) else None |}.

(** What can happen to an initialised component: a click on the trace
    button, typing a target (the input is disabled while tracing), a
    timer firing, an animation frame. *)
Inductive Step (taken : mapboxgl.OnTakenId)
    (fetchHops : string → list NetworkHop) : State → State → Prop :=
| StepClick (w : State) :
    Step taken fetchHops w (clickTraceRoute taken fetchHops w)
| StepType (v : string) (w : State) :
    isTracing w = false → Step taken fetchHops w (set_targetHost v w)
| StepTimer (w : State) : Step taken fetchHops w (fireTimer taken w)
| StepFrame (w : State) : Step taken fetchHops w (animationFrame w).

(** The overlay agrees with the session: at rest either nothing is drawn
    and no hop is listed, or the path of the listed hops is drawn; during
    a trace nothing is drawn, one timer is pending and the hops listed
    are those revealed so far. *)
Definition Consistent (w : State) : Prop :=
  ∃ m, map_current w = Some m
  ∧ ((isTracing w = false ∧ timers w = []
      ∧ ((pathOverlay m = (None, None, []) ∧ hops w = [])
         ∨ pathOverlay m
           = (Some (coordinatesOf (hops w)), Some pathLineLayer,
              hopMarkers (hops w))))
     ∨ (isTracing w = true ∧ pathOverlay m = (None, None, [])
        ∧ ∃ due k, timers w = [(due, k)]
          ∧ index k < length (mockHops k)
          ∧ hops w = take (index k) (mockHops k))).

(** A point inside a bounds box. *)
Definition inBounds (c : mapboxgl.LngLat) (b : mapboxgl.LngLatBounds)
    : Prop :=
  match b with
  | None => False
  | Some (sw, ne) =>
      (fst sw <= fst c)%Q ∧ (fst c <= fst ne)%Q
      ∧ (snd sw <= snd c)%Q ∧ (snd c <= snd ne)%Q
  end.

(** The state and map after the demo trace on [ready]. *)
Definition traced : State := traceRun mapboxgl.Raises mockTraceroute ready.

Definition tracedMap : mapboxgl.Map :=
  drawn (mockTraceroute "google.com") (cleared readyMap).

(** A string that is white space to [trim] but not ASCII: a space, a
    no-break space (U+00A0), an ideographic space (U+3000). *)
Definition blankSample : string :=
  String (ascii_of_nat 32)
    (String (ascii_of_nat 194) (String (ascii_of_nat 160)
       (String (ascii_of_nat 227) (String (ascii_of_nat 128)
          (String (ascii_of_nat 128) EmptyString))))).

(** The journal entry of a draw that threw. *)
Definition rejected (e : Effect) : bool :=
  match e with Rejected _ => true | _ => false end.

(** * Properties *)

(** ** Latency bands *)

Lemma lessThan_lt (a b : number) : lessThan a b = true ↔ (a < b)%Q.
Proof. unfold lessThan, Qlt. apply Z.ltb_lt. Qed.

Lemma lessThan_ge (a b : number) : lessThan a b = false ↔ (b <= a)%Q.
Proof. unfold lessThan, Qle. apply Z.ltb_ge. Qed.

Lemma band_good (l : number) :
  (l < 20)%Q →
  popupLatencyColor l = "#00ff00" ∧ getLatencyColor l = "text-latency-good".
Proof.
  intros Hl. apply lessThan_lt in Hl.
  unfold popupLatencyColor, getLatencyColor. by rewrite Hl.
Qed.

Lemma band_warning (l : number) :
  (20 <= l)%Q → (l < 100)%Q →
  popupLatencyColor l = "#ffff00"
  ∧ getLatencyColor l = "text-latency-warning".
Proof.
  intros Hlo Hhi. apply lessThan_ge in Hlo. apply lessThan_lt in Hhi.
  unfold popupLatencyColor, getLatencyColor. by rewrite Hlo, Hhi.
Qed.

Lemma band_error (l : number) :
  (100 <= l)%Q →
  popupLatencyColor l = "#ff0040" ∧ getLatencyColor l = "text-latency-error".
Proof.
  intros Hhi.
  assert (Hlo : (20 <= l)%Q) by (eapply Qle_trans; [| exact Hhi]; done).
  apply lessThan_ge in Hlo. apply lessThan_ge in Hhi.
  unfold popupLatencyColor, getLatencyColor. by rewrite Hlo, Hhi.
Qed.

(** The same on the doubles the two inexact literals denote. *)
Example latency_bands_on_doubles :
  getLatencyColor double_19_9 = "text-latency-good"
  ∧ getLatencyColor double_99_9 = "text-latency-warning"
  ∧ popupLatencyColor double_19_9 = "#00ff00"
  ∧ popupLatencyColor double_99_9 = "#ffff00".
Proof. repeat split. Qed.

(** ** Clearing and drawing *)

Lemma addMarkers_closed (l : list mapboxgl.Marker) (m : mapboxgl.Map) :
  foldl (λ m mk, mapboxgl.addMarker mk m) m l
  = {| mapboxgl.sources := mapboxgl.sources m;
       mapboxgl.layers := mapboxgl.layers m;
       mapboxgl.markers := mapboxgl.markers m ++ l;
       mapboxgl.center := mapboxgl.center m;
       mapboxgl.camera := mapboxgl.camera m |}.
Proof.
  revert m. induction l as [|mk l IH]; intros [s ly ms c cam]; simpl.
  - by rewrite app_nil_r.
  - rewrite IH. simpl. by rewrite <- app_assoc.
Qed.

Lemma clearNetworkPath_closed (w : State) (m : mapboxgl.Map) :
  map_current w = Some m →
  clearNetworkPath w = set_map (Some (cleared m)) (note ClearNetworkPath w).
Proof.
  intros Hm. unfold clearNetworkPath. simpl. rewrite Hm.
  unfold mapboxgl.getLayer, mapboxgl.getSource, cleared. do 2 f_equal.
  destruct m as [s ly ms c cam]. simpl.
  destruct (ly !! "network-path-line") eqn:Hl; simpl;
    destruct (s !! "network-path") eqn:Hs; simpl;
    unfold mapboxgl.removeElementsByClass; simpl;
    rewrite ?(delete_id ly) by done; rewrite ?(delete_id s) by done; done.
Qed.

Lemma clearNetworkPath_null (w : State) :
  map_current w = None → clearNetworkPath w = note ClearNetworkPath w.
Proof. intros Hm. unfold clearNetworkPath. simpl. by rewrite Hm. Qed.

Lemma addNetworkPath_closed taken (hopData : list NetworkHop)
    (w : State) (m : mapboxgl.Map) :
  map_current w = Some m →
  taken = mapboxgl.Replaces ∨ mapboxgl.sources m !! "network-path" = None →
  addNetworkPath taken hopData w
  = Normal (set_map (Some (drawn hopData m))
                    (note (AddNetworkPath hopData) w)).
Proof.
  intros Hm Hfree. unfold addNetworkPath. simpl. rewrite Hm.
  assert (mapboxgl.addSource taken "network-path" (coordinatesOf hopData) m
          = inr {| mapboxgl.sources :=
                     <["network-path" := coordinatesOf hopData]>
                       (mapboxgl.sources m);
                   mapboxgl.layers := mapboxgl.layers m;
                   mapboxgl.markers := mapboxgl.markers m;
                   mapboxgl.center := mapboxgl.center m;
                   mapboxgl.camera := mapboxgl.camera m |}) as ->.
  { unfold mapboxgl.addSource.
    destruct Hfree as [-> | ->]; [by destruct (_ !! _) | done]. }
  do 2 f_equal. rewrite addMarkers_closed.
  unfold drawn, mapboxgl.fitBounds, mapboxgl.addLayer. simpl.
  by destruct (mapboxgl.layers m !! "network-path-line").
Qed.

Lemma addNetworkPath_taken (hopData : list NetworkHop)
    (w : State) (m : mapboxgl.Map) :
  map_current w = Some m →
  is_Some (mapboxgl.sources m !! "network-path") →
  addNetworkPath mapboxgl.Raises hopData w
  = Throw "There is already a source with this ID"
          (note (AddNetworkPath hopData) w).
Proof.
  intros Hm [c Hc]. unfold addNetworkPath. simpl. rewrite Hm.
  unfold mapboxgl.addSource. by rewrite Hc.
Qed.

Lemma addNetworkPath_null taken (hopData : list NetworkHop) (w : State) :
  map_current w = None →
  addNetworkPath taken hopData w = Normal (note (AddNetworkPath hopData) w).
Proof. intros Hm. unfold addNetworkPath. simpl. by rewrite Hm. Qed.

Lemma filter_imap_all {A B} (P : B → Prop) `{∀ x, Decision (P x)}
    (f : nat → A → B) (l : list A) :
  (∀ i x, P (f i x)) → filter P (imap f l) = imap f l.
Proof.
  revert f. induction l as [|x l IH]; intros f Hf; [done|].
  rewrite imap_cons, filter_cons. rewrite decide_True by apply Hf.
  f_equal. apply IH. intros i y. apply Hf.
Qed.

Lemma filter_imap_none {A B} (P : B → Prop) `{∀ x, Decision (P x)}
    (f : nat → A → B) (l : list A) :
  (∀ i x, ¬ P (f i x)) → filter P (imap f l) = [].
Proof.
  revert f. induction l as [|x l IH]; intros f Hf; [done|].
  rewrite imap_cons, filter_cons. rewrite decide_False by apply Hf.
  apply IH. intros i y. apply Hf.
Qed.

Lemma hopMarkers_are_hop_markers (hopData : list NetworkHop) :
  filter (λ mk, mapboxgl.className (mapboxgl.element mk) = "hop-marker")
         (hopMarkers hopData)
  = hopMarkers hopData.
Proof. apply filter_imap_all. done. Qed.

Lemma hopMarkers_removed (hopData : list NetworkHop) :
  filter (λ mk, mapboxgl.className (mapboxgl.element mk) ≠ "hop-marker")
         (hopMarkers hopData)
  = [].
Proof. apply filter_imap_none. intros i x Hne. by apply Hne. Qed.

Lemma hopMarkerElements_cleared (m : mapboxgl.Map) :
  hopMarkerElements (cleared m) = [].
Proof.
  unfold hopMarkerElements, cleared. simpl.
  induction (mapboxgl.markers m) as [|mk l IH]; [done|].
  rewrite filter_cons. case_decide as Hc; [|done].
  rewrite filter_cons. by rewrite decide_False.
Qed.

Lemma pathOverlay_cleared (m : mapboxgl.Map) :
  pathOverlay (cleared m) = (None, None, []).
Proof.
  unfold pathOverlay. rewrite hopMarkerElements_cleared.
  unfold cleared. simpl. by rewrite !lookup_delete_eq.
Qed.

Lemma pathOverlay_drawn_cleared (hopData : list NetworkHop)
    (m : mapboxgl.Map) :
  pathOverlay (drawn hopData (cleared m))
  = (Some (coordinatesOf hopData), Some pathLineLayer, hopMarkers hopData).
Proof.
  pose proof (hopMarkerElements_cleared m) as Hc.
  unfold pathOverlay, hopMarkerElements in *. unfold drawn.
  unfold mapboxgl.addLayer. simpl in *.
  rewrite lookup_delete_eq. simpl.
  rewrite !lookup_insert_eq, filter_app, Hc, hopMarkers_are_hop_markers.
  done.
Qed.

Lemma overlay_redrawn (hopData : list NetworkHop) (m : mapboxgl.Map) :
  mapboxgl.overlay (drawn hopData (cleared (drawn hopData (cleared m))))
  = mapboxgl.overlay (drawn hopData (cleared m)).
Proof.
  unfold mapboxgl.overlay, drawn, mapboxgl.addLayer. simpl.
  rewrite !lookup_delete_eq. simpl.
  rewrite !insert_delete_eq, !insert_insert_eq.
  rewrite filter_app, hopMarkers_removed, app_nil_r.
  rewrite list_filter_filter_l by done. done.
Qed.

(** C1 (amended). [addNetworkPath] does no clearing of its own; it is
    [clearNetworkPath] followed by [addNetworkPath] that is idempotent:
    on an initialised map, whatever was drawn before, the pair leaves
    exactly the path geometry of the hops, the path line layer and one
    marker per hop, and running the pair again leaves the same sources,
    layers and markers. *)
Theorem clear_then_add_idempotent taken (hopData : list NetworkHop)
    (w : State) (m : mapboxgl.Map) :
  map_current w = Some m →
  ∃ w1 m1 w2 m2,
    addNetworkPath taken hopData (clearNetworkPath w) = Normal w1
    ∧ map_current w1 = Some m1
    ∧ pathOverlay m1
      = (Some (coordinatesOf hopData), Some pathLineLayer,
         hopMarkers hopData)
    ∧ length (hopMarkers hopData) = length hopData
    ∧ addNetworkPath taken hopData (clearNetworkPath w1) = Normal w2
    ∧ map_current w2 = Some m2
    ∧ mapboxgl.overlay m2 = mapboxgl.overlay m1.
Proof.
  intros Hm.
  rewrite (clearNetworkPath_closed w m Hm).
  rewrite (addNetworkPath_closed taken hopData _ (cleared m));
    [| done | right; apply lookup_delete_eq].
  eexists _, (drawn hopData (cleared m)), _, _.
  split; [reflexivity|]. split; [reflexivity|].
  split; [apply pathOverlay_drawn_cleared|].
  split; [apply length_imap|].
  rewrite (clearNetworkPath_closed _ (drawn hopData (cleared m)))
    by reflexivity.
  rewrite (addNetworkPath_closed taken hopData _
             (cleared (drawn hopData (cleared m))));
    [| done | right; apply lookup_delete_eq].
  split; [reflexivity|]. split; [reflexivity|].
  apply overlay_redrawn.
Qed.

Lemma clear_then_add_idempotent_witness :
  ∃ w1 m1 w2 m2,
    addNetworkPath mapboxgl.Raises demoHops (clearNetworkPath ready)
    = Normal w1
    ∧ map_current w1 = Some m1
    ∧ pathOverlay m1
      = (Some (coordinatesOf demoHops), Some pathLineLayer,
         hopMarkers demoHops)
    ∧ length (hopMarkers demoHops) = length demoHops
    ∧ addNetworkPath mapboxgl.Raises demoHops (clearNetworkPath w1)
      = Normal w2
    ∧ map_current w2 = Some m2
    ∧ mapboxgl.overlay m2 = mapboxgl.overlay m1.
Proof.
  eapply (clear_then_add_idempotent mapboxgl.Raises demoHops ready).
  reflexivity.
Defined.

(** C1 (as stated, refuted). Calling [addNetworkPath] a second time with
    the same hops is not the same as calling it once: where the engine
    raises on a taken source id the second call throws, and where it
    replaces the source the four markers become eight. *)
Lemma addNetworkPath_twice_differs :
  threw (addNetworkPath mapboxgl.Raises demoHops ready) = false
  ∧ threw (addNetworkPath mapboxgl.Raises demoHops
             (stateOf (addNetworkPath mapboxgl.Raises demoHops ready)))
    = true
  ∧ hopMarkerCount (stateOf (addNetworkPath mapboxgl.Replaces demoHops ready))
    = 4
  ∧ hopMarkerCount
      (stateOf (addNetworkPath mapboxgl.Replaces demoHops
                  (stateOf (addNetworkPath mapboxgl.Replaces demoHops ready))))
    = 8.
Proof. vm_compute. repeat split. Qed.

(** C2 (amended). On an initialised map with no path drawn,
    [addNetworkPath []] places no marker, but it does add the path source
    with an empty coordinate list and the path line layer, and it does
    issue one [fitBounds], on the empty box with padding 100. *)
Theorem addNetworkPath_empty taken (w : State) (m : mapboxgl.Map) :
  map_current w = Some m →
  mapboxgl.sources m !! "network-path" = None →
  mapboxgl.layers m !! "network-path-line" = None →
  ∃ m',
    map_current (stateOf (addNetworkPath taken [] w)) = Some m'
    ∧ mapboxgl.markers m' = mapboxgl.markers m
    ∧ mapboxgl.sources m' !! "network-path" = Some []
    ∧ mapboxgl.layers m' !! "network-path-line" = Some pathLineLayer
    ∧ mapboxgl.camera m'
      = mapboxgl.camera m ++ [mapboxgl.FitBounds None 100].
Proof.
  intros Hm Hs Hl.
  rewrite (addNetworkPath_closed taken [] w m Hm) by (by right).
  eexists. split; [reflexivity|].
  unfold drawn, mapboxgl.addLayer. rewrite Hl. simpl.
  rewrite app_nil_r, !lookup_insert_eq. done.
Qed.

Lemma addNetworkPath_empty_witness :
  ∃ m',
    map_current (stateOf (addNetworkPath mapboxgl.Raises [] ready)) = Some m'
    ∧ mapboxgl.markers m' = mapboxgl.markers readyMap
    ∧ mapboxgl.sources m' !! "network-path" = Some []
    ∧ mapboxgl.layers m' !! "network-path-line" = Some pathLineLayer
    ∧ mapboxgl.camera m'
      = mapboxgl.camera readyMap ++ [mapboxgl.FitBounds None 100].
Proof.
  apply (addNetworkPath_empty mapboxgl.Raises ready readyMap); reflexivity.
Defined.

(** C2 (as stated, refuted). With the empty hop list on the initialised
    map, the path line layer is created and a bounds fit is issued. *)
Lemma addNetworkPath_empty_draws_and_fits :
  (pathOverlay <$> map_current (stateOf (addNetworkPath mapboxgl.Raises [] ready)))
  = Some (Some [], Some pathLineLayer, [])
  ∧ (mapboxgl.camera <$>
       map_current (stateOf (addNetworkPath mapboxgl.Raises [] ready)))
    = Some [mapboxgl.EaseTo (0 + 0.1, 20)%Q 100; mapboxgl.FitBounds None 100]
  ∧ (pathOverlay <$>
       map_current (stateOf (addNetworkPath mapboxgl.Replaces [] ready)))
    = Some (Some [], Some pathLineLayer, [])
  ∧ (mapboxgl.camera <$>
       map_current (stateOf (addNetworkPath mapboxgl.Replaces [] ready)))
    = Some [mapboxgl.EaseTo (0 + 0.1, 20)%Q 100; mapboxgl.FitBounds None 100].
Proof. vm_compute. repeat split. Qed.

(** ** Marker styles *)

Lemma hopMarkers_lookup (hopData : list NetworkHop) (i : nat) :
  hopMarkers hopData !! i = hopMarker (length hopData) i <$> hopData !! i.
Proof. apply list_lookup_imap. Qed.

Lemma styleOf_hopMarker (n i : nat) (hop : NetworkHop) :
  styleOf (hopMarker n i hop) = (markerColor i n, markerColor i n).
Proof. reflexivity. Qed.

Lemma markerColor_first (n : nat) : markerColor 0 n = "#00ff00".
Proof. reflexivity. Qed.

Lemma markerColor_last (n : nat) : 2 ≤ n → markerColor (n - 1) n = "#ff0040".
Proof.
  intros Hn. unfold markerColor.
  destruct (Z.eqb_spec (Z.of_nat (n - 1)) 0); [lia|].
  destruct (Z.eqb_spec (Z.of_nat (n - 1)) (Z.of_nat n - 1)); [done | lia].
Qed.

Lemma markerColor_between (i n : nat) :
  0 < i → i < n - 1 → markerColor i n = "#00ffff".
Proof.
  intros Hlo Hhi. unfold markerColor.
  destruct (Z.eqb_spec (Z.of_nat i) 0); [lia|].
  destruct (Z.eqb_spec (Z.of_nat i) (Z.of_nat n - 1)); [lia | done].
Qed.

Lemma style_at (hopData : list NetworkHop) (i : nat) :
  i < length hopData →
  styleOf <$> hopMarkers hopData !! i
  = Some (markerColor i (length hopData), markerColor i (length hopData)).
Proof.
  intros Hi. rewrite hopMarkers_lookup.
  destruct (lookup_lt_is_Some_2 hopData i Hi) as [hop ->]. done.
Qed.

(** C6 (amended). Drawing a hop list of length at least 1 gives the marker
    of index 0 the origin colour, every marker strictly between the first
    and the last the relay colour, and the marker of the last index the
    destination colour when the list has at least two hops. *)
Theorem marker_styles_by_position taken (hopData : list NetworkHop)
    (w : State) (m : mapboxgl.Map) :
  map_current w = Some m →
  mapboxgl.sources m !! "network-path" = None →
  1 ≤ length hopData →
  ∃ w' m' placed,
    addNetworkPath taken hopData w = Normal w'
    ∧ map_current w' = Some m'
    ∧ mapboxgl.markers m' = mapboxgl.markers m ++ placed
    ∧ styleOf <$> placed !! 0 = Some ("#00ff00", "#00ff00")
    ∧ (2 ≤ length hopData →
       styleOf <$> placed !! (length hopData - 1)
       = Some ("#ff0040", "#ff0040"))
    ∧ (∀ i, 0 < i → i < length hopData - 1 →
       styleOf <$> placed !! i = Some ("#00ffff", "#00ffff")).
Proof.
  intros Hm Hs Hlen.
  rewrite (addNetworkPath_closed taken hopData w m Hm) by (by right).
  eexists _, _, (hopMarkers hopData).
  split; [reflexivity|]. split; [reflexivity|]. split; [reflexivity|].
  split; [|split].
  - rewrite style_at by lia. by rewrite markerColor_first.
  - intros H2. rewrite style_at by lia. by rewrite markerColor_last.
  - intros i Hlo Hhi. rewrite style_at by lia.
    by rewrite markerColor_between.
Qed.

Lemma marker_styles_by_position_witness :
  ∃ w' m' placed,
    addNetworkPath mapboxgl.Raises demoHops ready = Normal w'
    ∧ map_current w' = Some m'
    ∧ mapboxgl.markers m' = mapboxgl.markers readyMap ++ placed
    ∧ styleOf <$> placed !! 0 = Some ("#00ff00", "#00ff00")
    ∧ (2 ≤ length demoHops →
       styleOf <$> placed !! (length demoHops - 1)
       = Some ("#ff0040", "#ff0040"))
    ∧ (∀ i, 0 < i → i < length demoHops - 1 →
       styleOf <$> placed !! i = Some ("#00ffff", "#00ffff")).
Proof.
  apply (marker_styles_by_position mapboxgl.Raises demoHops ready readyMap);
    [reflexivity | reflexivity | simpl; lia].
Defined.

(** C6 (as stated, refuted). For the list of one hop, the marker of index
    [length - 1] carries the origin colour, not the destination colour. *)
Lemma last_marker_of_single_hop_is_origin :
  (styleOf <$> hopMarkers (take 1 demoHops) !! (length (take 1 demoHops) - 1))
  = Some ("#00ff00", "#00ff00")
  ∧ (styleOf <$>
       (mapboxgl.markers <$>
          map_current
            (stateOf (addNetworkPath mapboxgl.Raises (take 1 demoHops) ready)))
       ≫= (λ ms, ms !! (length (take 1 demoHops) - 1)))
    = Some ("#00ff00", "#00ff00")
  ∧ ("#00ff00", "#00ff00") ≠ ("#ff0040", "#ff0040").
Proof. vm_compute. repeat split. discriminate. Qed.

(** C10. A hop list of one hop gets one marker, and that marker carries
    the origin colour, which is not the destination colour: the test
    [index === 0] comes first. *)
Theorem single_hop_marker_is_origin taken (hop : NetworkHop)
    (w : State) (m : mapboxgl.Map) :
  map_current w = Some m →
  mapboxgl.sources m !! "network-path" = None →
  ∃ w' m' mk,
    addNetworkPath taken [hop] w = Normal w'
    ∧ map_current w' = Some m'
    ∧ mapboxgl.markers m' = mapboxgl.markers m ++ [mk]
    ∧ styleOf mk = ("#00ff00", "#00ff00")
    ∧ styleOf mk ≠ ("#ff0040", "#ff0040").
Proof.
  intros Hm Hs.
  rewrite (addNetworkPath_closed taken [hop] w m Hm) by (by right).
  eexists _, _, _.
  split; [reflexivity|]. split; [reflexivity|]. split; [reflexivity|].
  split; [reflexivity | discriminate].
Qed.

Lemma single_hop_marker_is_origin_witness :
  ∃ w' m' mk,
    addNetworkPath mapboxgl.Raises (take 1 demoHops) ready = Normal w'
    ∧ map_current w' = Some m'
    ∧ mapboxgl.markers m' = mapboxgl.markers readyMap ++ [mk]
    ∧ styleOf mk = ("#00ff00", "#00ff00")
    ∧ styleOf mk ≠ ("#ff0040", "#ff0040").
Proof.
  apply (single_hop_marker_is_origin mapboxgl.Raises _ ready readyMap);
    reflexivity.
Defined.

(** C7. Drawing the hops [hopData] on an initialised map with no path
    source places [length hopData] markers, after those already there,
    and gives the path source the hops' (longitude, latitude) pairs in hop
    order. *)
Theorem markers_and_vertices_follow_hops taken (hopData : list NetworkHop)
    (w : State) (m : mapboxgl.Map) :
  map_current w = Some m →
  mapboxgl.sources m !! "network-path" = None →
  ∃ w' m' placed,
    addNetworkPath taken hopData w = Normal w'
    ∧ map_current w' = Some m'
    ∧ mapboxgl.markers m' = mapboxgl.markers m ++ placed
    ∧ length placed = length hopData
    ∧ mapboxgl.lngLat <$> placed
      = (λ hop, (longitude hop, latitude hop)) <$> hopData
    ∧ mapboxgl.sources m' !! "network-path"
      = Some ((λ hop, (longitude hop, latitude hop)) <$> hopData)
    ∧ length ((λ hop, (longitude hop, latitude hop)) <$> hopData)
      = length hopData.
Proof.
  intros Hm Hs.
  rewrite (addNetworkPath_closed taken hopData w m Hm) by (by right).
  eexists _, _, (hopMarkers hopData).
  split; [reflexivity|]. split; [reflexivity|]. split; [reflexivity|].
  split; [apply length_imap|].
  split; [| split; [apply lookup_insert_eq | apply length_fmap]].
  unfold hopMarkers. generalize (length hopData). intros n.
  apply list_eq. intros i.
  rewrite !list_lookup_fmap, list_lookup_imap.
  by destruct (hopData !! i).
Qed.

Lemma markers_and_vertices_follow_hops_witness :
  ∃ w' m' placed,
    addNetworkPath mapboxgl.Raises demoHops ready = Normal w'
    ∧ map_current w' = Some m'
    ∧ mapboxgl.markers m' = mapboxgl.markers readyMap ++ placed
    ∧ length placed = length demoHops
    ∧ mapboxgl.lngLat <$> placed
      = (λ hop, (longitude hop, latitude hop)) <$> demoHops
    ∧ mapboxgl.sources m' !! "network-path"
      = Some ((λ hop, (longitude hop, latitude hop)) <$> demoHops)
    ∧ length ((λ hop, (longitude hop, latitude hop)) <$> demoHops)
      = length demoHops.
Proof.
  apply (markers_and_vertices_follow_hops mapboxgl.Raises demoHops
           ready readyMap); reflexivity.
Defined.

(** ** Latency colours of what is drawn and listed *)

Lemma drawn_marker_at (hopData : list NetworkHop) (m : mapboxgl.Map)
    (i : nat) (hop : NetworkHop) :
  hopData !! i = Some hop →
  mapboxgl.markers (drawn hopData m) !! (length (mapboxgl.markers m) + i)
  = Some (hopMarker (length hopData) i hop).
Proof.
  intros Hhop. unfold drawn. simpl.
  rewrite lookup_app_r by lia.
  replace (length (mapboxgl.markers m) + i - length (mapboxgl.markers m))
    with i by lia.
  by rewrite hopMarkers_lookup, Hhop.
Qed.

Lemma panel_card_at (mapboxToken : option string) (w : State) (i : nat)
    (hop : NetworkHop) :
  hops w !! i = Some hop →
  hopPanel (render mapboxToken w) = Some (hopCard <$> hops w)
  ∧ (hopCard <$> hops w) !! i = Some (hopCard hop).
Proof.
  intros Hhop. split.
  - unfold render. simpl. by destruct (hops w).
  - by rewrite list_lookup_fmap, Hhop.
Qed.

(** C5. For a latency [l >= 0], the popup colour and [getLatencyColor]
    agree on the half-open bands: [l < 20] is good, [20 <= l < 100] is
    warning, [100 <= l] is error; so 19.9 is good, 20.0 and 99.9 are
    warning and 100.0 is error.  And these are the colours shown: for
    every hop of a drawn list, the marker placed for it carries the hop's
    number and latency in its popup with the latency coloured by that
    band, and for every hop listed, its card in the details panel has
    the class of that band. *)
Theorem latency_bands_half_open (l : number) :
  (0 <= l)%Q →
  ((l < 20)%Q →
     popupLatencyColor l = "#00ff00"
     ∧ getLatencyColor l = "text-latency-good")
  ∧ ((20 <= l)%Q → (l < 100)%Q →
     popupLatencyColor l = "#ffff00"
     ∧ getLatencyColor l = "text-latency-warning")
  ∧ ((100 <= l)%Q →
     popupLatencyColor l = "#ff0040"
     ∧ getLatencyColor l = "text-latency-error")
  ∧ (popupLatencyColor 19.9%Q, getLatencyColor 19.9%Q)
      = ("#00ff00", "text-latency-good")
  ∧ (popupLatencyColor 20.0%Q, getLatencyColor 20.0%Q)
      = ("#ffff00", "text-latency-warning")
  ∧ (popupLatencyColor 99.9%Q, getLatencyColor 99.9%Q)
      = ("#ffff00", "text-latency-warning")
  ∧ (popupLatencyColor 100.0%Q, getLatencyColor 100.0%Q)
      = ("#ff0040", "text-latency-error")
  ∧ (∀ taken (hopData : list NetworkHop) (w : State) (m : mapboxgl.Map)
       (i : nat) (hop : NetworkHop),
       map_current w = Some m →
       mapboxgl.sources m !! "network-path" = None →
       hopData !! i = Some hop →
       latency hop = l →
       ∃ w' m' mk,
         addNetworkPath taken hopData w = Normal w'
         ∧ map_current w' = Some m'
         ∧ mapboxgl.markers m' !! (length (mapboxgl.markers m) + i) = Some mk
         ∧ mapboxgl.heading (mapboxgl.popup mk) = hop_id hop
         ∧ mapboxgl.span_latency (mapboxgl.popup mk) = l
         ∧ ((l < 20)%Q →
            mapboxgl.span_color (mapboxgl.popup mk) = "#00ff00")
         ∧ ((20 <= l)%Q → (l < 100)%Q →
            mapboxgl.span_color (mapboxgl.popup mk) = "#ffff00")
         ∧ ((100 <= l)%Q →
            mapboxgl.span_color (mapboxgl.popup mk) = "#ff0040"))
  ∧ (∀ (mapboxToken : option string) (w : State) (i : nat)
       (hop : NetworkHop),
       hops w !! i = Some hop →
       latency hop = l →
       ∃ cards card,
         hopPanel (render mapboxToken w) = Some cards
         ∧ cards !! i = Some card
         ∧ card_hop card = hop_id hop
         ∧ card_latency card = l
         ∧ ((l < 20)%Q → card_latency_class card = "text-latency-good")
         ∧ ((20 <= l)%Q → (l < 100)%Q →
            card_latency_class card = "text-latency-warning")
         ∧ ((100 <= l)%Q →
            card_latency_class card = "text-latency-error")).
Proof.
  intros _.
  split; [intros H; by apply band_good|].
  split; [intros H1 H2; by apply band_warning|].
  split; [intros H; by apply band_error|].
  do 4 (split; [reflexivity|]).
  split.
  - intros taken hopData w m i hop Hm Hs Hhop <-.
    rewrite (addNetworkPath_closed taken hopData w m Hm) by (by right).
    eexists _, _, _. split; [reflexivity|]. split; [reflexivity|].
    split; [by apply drawn_marker_at|]. simpl.
    split; [done|]. split; [done|].
    split; [intros H; by apply band_good|].
    split; [intros H1 H2; by apply band_warning|].
    intros H; by apply band_error.
  - intros mapboxToken w i hop Hhop <-.
    destruct (panel_card_at mapboxToken w i hop Hhop) as [Hp Hc].
    eexists _, _. split; [exact Hp|]. split; [exact Hc|]. simpl.
    split; [done|]. split; [done|].
    split; [intros H; by apply band_good|].
    split; [intros H1 H2; by apply band_warning|].
    intros H; by apply band_error.
Qed.

Lemma latency_bands_half_open_witness :
  popupLatencyColor 19.9%Q = "#00ff00"
  ∧ getLatencyColor 19.9%Q = "text-latency-good"
  ∧ (∃ w' m' mk,
       addNetworkPath mapboxgl.Raises demoHops ready = Normal w'
       ∧ map_current w' = Some m'
       ∧ mapboxgl.markers m' !! (length (mapboxgl.markers readyMap) + 2)
         = Some mk
       ∧ mapboxgl.span_color (mapboxgl.popup mk) = "#ffff00")
  ∧ (∃ cards card,
       hopPanel (render None traced) = Some cards
       ∧ cards !! 1 = Some card
       ∧ card_latency_class card = "text-latency-good").
Proof.
  destruct (latency_bands_half_open 19.9%Q) as [Hgood _];
    [unfold Qle; simpl; lia|].
  destruct (Hgood ltac:(unfold Qlt; simpl; lia)) as [Hp Hc].
  split; [exact Hp|]. split; [exact Hc|]. split.
  - destruct (latency_bands_half_open 45.3%Q)
      as (_ & _ & _ & _ & _ & _ & _ & Hmk & _); [unfold Qle; simpl; lia|].
    destruct (Hmk mapboxgl.Raises demoHops ready readyMap 2 _
                eq_refl eq_refl eq_refl eq_refl)
      as (w' & m' & mk & H1 & H2 & H3 & _ & _ & _ & Hw & _).
    exists w', m', mk.
    split; [exact H1|]. split; [exact H2|]. split; [exact H3|].
    apply Hw; [unfold Qle | unfold Qlt]; simpl; lia.
  - destruct (latency_bands_half_open 12.5%Q)
      as (_ & _ & _ & _ & _ & _ & _ & _ & Hcard); [unfold Qle; simpl; lia|].
    destruct (Hcard None traced 1 _ eq_refl eq_refl)
      as (cards & card & H1 & H2 & _ & _ & Hg & _).
    exists cards, card. split; [exact H1|]. split; [exact H2|].
    apply Hg. unfold Qlt; simpl; lia.
Defined.

(** ** The reveal scheduler *)

Section Scheduler.

Variable taken : mapboxgl.OnTakenId.

Lemma revealed_frame (l : list NetworkHop) (w : State) :
  journal (revealed l w) = journal w ++ revealEntries (clock w) l
  ∧ hops (revealed l w) = hops w ++ l
  ∧ clock (revealed l w) = (clock w + 1000 * N.of_nat (length l))%N
  ∧ isTracing (revealed l w) = isTracing w
  ∧ map_current (revealed l w) = map_current w
  ∧ timers (revealed l w) = timers w
  ∧ targetHost (revealed l w) = targetHost w.
Proof.
  revert w. induction l as [|h l IH]; intros w.
  - simpl. rewrite !app_nil_r. repeat split; lia.
  - simpl revealed. destruct (IH (appendHop h
      (set_clock (clock w + 1000)%N (note (SetTimeout 1000) w))))
      as (Hj & Hh & Hc & Ht & Hm & Hq & Hg).
    rewrite Hj, Hh, Hc, Ht, Hm, Hq, Hg. simpl.
    rewrite <- !app_assoc. simpl. repeat split; lia.
Qed.

Lemma fire_pending_reveal (k : Reveal) (hop : NetworkHop) (w : State) :
  timers w = [] →
  mockHops k !! index k = Some hop →
  fireTimer taken (revealLoop taken k w)
  = revealLoop taken
      {| mockHops := mockHops k; index := S (index k);
         seen_targetHost := seen_targetHost k |}
      (appendHop hop (set_clock (clock w + 1000)%N (note (SetTimeout 1000) w))).
Proof.
  intros Hq Hhop. unfold revealLoop at 1.
  pose proof (lookup_lt_Some _ _ _ Hhop) as Hlt.
  apply Nat.ltb_lt in Hlt. rewrite Hlt.
  unfold fireTimer, setTimeout. simpl. rewrite Hq. simpl.
  unfold resumeReveal. rewrite Hhop. f_equal.
  destruct w as [mc tok mp tg tr hs ck tm fr jn]. simpl in *. subst tm.
  unfold appendHop, note, set_hops, set_clock, set_timers. simpl.
  by rewrite N.max_r by lia.
Qed.

(** Firing one timer per remaining hop runs the loop to its end. *)
Lemma reveal_all (tg : string) (rest pre : list NetworkHop) (w : State) :
  timers w = [] →
  fireTimers taken (length rest)
    (revealLoop taken
       {| mockHops := pre ++ rest; index := length pre;
          seen_targetHost := tg |} w)
  = finishTrace taken
      {| mockHops := pre ++ rest; index := length (pre ++ rest);
         seen_targetHost := tg |}
      (revealed rest w).
Proof.
  revert pre w. induction rest as [|hop rest IH]; intros pre w Hq.
  - simpl. unfold revealLoop. simpl. rewrite app_nil_r.
    by rewrite Nat.ltb_irrefl.
  - simpl fireTimers. rewrite (fire_pending_reveal _ hop); [| done |].
    2:{ simpl. by apply list_lookup_middle. }
    simpl. rewrite (cons_middle hop pre rest), app_assoc.
    replace (S (length pre)) with (length (pre ++ [hop]))
      by (rewrite length_app; simpl; lia).
    by apply IH.
Qed.

(** Firing fewer timers than there are hops leaves the loop waiting. *)
Lemma reveal_some (tg : string) (r1 r2 pre : list NetworkHop) (w : State) :
  timers w = [] →
  r2 ≠ [] →
  fireTimers taken (length r1)
    (revealLoop taken
       {| mockHops := pre ++ r1 ++ r2; index := length pre;
          seen_targetHost := tg |} w)
  = setTimeout 1000
      {| mockHops := pre ++ r1 ++ r2; index := length (pre ++ r1);
         seen_targetHost := tg |}
      (revealed r1 w).
Proof.
  revert pre w. induction r1 as [|hop r1 IH]; intros pre w Hq Hr2.
  - simpl. unfold revealLoop. simpl. rewrite app_nil_r.
    assert (length pre < length (pre ++ r2)) as Hlt.
    { rewrite length_app. destruct r2; [done | simpl; lia]. }
    apply Nat.ltb_lt in Hlt. by rewrite Hlt.
  - simpl fireTimers. rewrite (fire_pending_reveal _ hop); [| done |].
    2:{ simpl. by apply list_lookup_middle. }
    simpl.
    replace (pre ++ hop :: r1 ++ r2) with ((pre ++ [hop]) ++ r1 ++ r2)
      by (by rewrite <- app_assoc).
    replace (pre ++ hop :: r1) with ((pre ++ [hop]) ++ r1)
      by (by rewrite <- app_assoc).
    replace (S (length pre)) with (length (pre ++ [hop]))
      by (rewrite length_app; simpl; lia).
    by apply IH.
Qed.

Variable fetchHops : string → list NetworkHop.

Lemma executeTraceroute_started (w : State) (m : mapboxgl.Map) :
  map_current w = Some m →
  executeTraceroute taken fetchHops w
  = revealLoop taken
      {| mockHops := fetchHops (targetHost w); index := 0;
         seen_targetHost := targetHost w |}
      (started w).
Proof.
  intros Hm. unfold executeTraceroute, started. rewrite Hm.
  rewrite (clearNetworkPath_closed _ m) by done. reflexivity.
Qed.

Lemma started_frame (w : State) (m : mapboxgl.Map) :
  map_current w = Some m →
  journal (started w)
  = journal w
    ++ [(clock w, SetIsTracing true); (clock w, ClearNetworkPath);
        (clock w,
         ShowToast {| title := "Tracing route...";
                      description := "Starting traceroute to " +:+ targetHost w;
                      destructive := false |});
        (clock w, FetchHops (targetHost w)); (clock w, SetHops [])]
  ∧ hops (started w) = []
  ∧ clock (started w) = clock w
  ∧ isTracing (started w) = true
  ∧ map_current (started w) = Some (cleared m)
  ∧ timers (started w) = timers w
  ∧ targetHost (started w) = targetHost w.
Proof.
  intros Hm. unfold started.
  rewrite (clearNetworkPath_closed _ m) by done. simpl.
  rewrite <- !app_assoc. done.
Qed.

(** The state of a trace after [k] of its timers, [k] short of the number
    of hops: still waiting, with the first [k] hops published. *)
Lemma trace_in_progress (w : State) (m : mapboxgl.Map) (k : nat) :
  map_current w = Some m →
  timers w = [] →
  k < length (fetchHops (targetHost w)) →
  fireTimers taken k (executeTraceroute taken fetchHops w)
  = setTimeout 1000
      {| mockHops := fetchHops (targetHost w); index := k;
         seen_targetHost := targetHost w |}
      (revealed (take k (fetchHops (targetHost w))) (started w)).
Proof.
  intros Hm Hq Hk. rewrite (executeTraceroute_started w m Hm).
  destruct (started_frame w m Hm) as (_ & _ & _ & _ & _ & Hq' & _).
  rewrite Hq in Hq'.
  pose proof (reveal_some (targetHost w)
                (take k (fetchHops (targetHost w)))
                (drop k (fetchHops (targetHost w))) [] (started w) Hq')
    as Hrun.
  simpl in Hrun. rewrite take_drop, length_take, Nat.min_l in Hrun by lia.
  apply Hrun. intros Hnil.
  apply (f_equal length) in Hnil. rewrite length_drop in Hnil.
  simpl in Hnil. lia.
Qed.

Lemma trace_finished (w : State) (m : mapboxgl.Map) :
  map_current w = Some m →
  timers w = [] →
  traceRun taken fetchHops w
  = finishTrace taken
      {| mockHops := fetchHops (targetHost w);
         index := length (fetchHops (targetHost w));
         seen_targetHost := targetHost w |}
      (revealed (fetchHops (targetHost w)) (started w)).
Proof.
  intros Hm Hq. unfold traceRun. rewrite (executeTraceroute_started w m Hm).
  destruct (started_frame w m Hm) as (_ & _ & _ & _ & _ & Hq' & _).
  rewrite Hq in Hq'.
  apply (reveal_all (targetHost w) (fetchHops (targetHost w)) [] _ Hq').
Qed.

End Scheduler.

Section Trace.

Variable taken : mapboxgl.OnTakenId.
Variable fetchHops : string → list NetworkHop.

Lemma finishTrace_frame (k : Reveal) (w : State) (m : mapboxgl.Map) :
  map_current w = Some m →
  mapboxgl.sources m !! "network-path" = None →
  journal (finishTrace taken k w)
  = journal w
    ++ [(clock w, AddNetworkPath (mockHops k)); (clock w, SetHops (mockHops k));
        (clock w, SetIsTracing false);
        (clock w,
         ShowToast {| title := "Traceroute complete";
                      description :=
                        "Found " +:+ toString (length (mockHops k)) +:+
                        " hops to " +:+ seen_targetHost k;
                      destructive := false |})]
  ∧ hops (finishTrace taken k w) = mockHops k
  ∧ isTracing (finishTrace taken k w) = false
  ∧ clock (finishTrace taken k w) = clock w
  ∧ timers (finishTrace taken k w) = timers w
  ∧ map_current (finishTrace taken k w) = Some (drawn (mockHops k) m).
Proof.
  intros Hm Hs. unfold finishTrace.
  rewrite (addNetworkPath_closed taken (mockHops k) w m Hm) by (by right).
  simpl. rewrite <- !app_assoc. done.
Qed.

(** A whole trace from a state with a map and no timer pending. *)
Lemma traceRun_frame (w : State) (m : mapboxgl.Map) :
  map_current w = Some m →
  timers w = [] →
  journal (traceRun taken fetchHops w)
  = journal w
    ++ [(clock w, SetIsTracing true); (clock w, ClearNetworkPath);
        (clock w,
         ShowToast {| title := "Tracing route...";
                      description := "Starting traceroute to " +:+ targetHost w;
                      destructive := false |});
        (clock w, FetchHops (targetHost w)); (clock w, SetHops [])]
    ++ revealEntries (clock w) (fetchHops (targetHost w))
    ++ [((clock w + 1000 * N.of_nat (length (fetchHops (targetHost w))))%N,
         AddNetworkPath (fetchHops (targetHost w)));
        ((clock w + 1000 * N.of_nat (length (fetchHops (targetHost w))))%N,
         SetHops (fetchHops (targetHost w)));
        ((clock w + 1000 * N.of_nat (length (fetchHops (targetHost w))))%N,
         SetIsTracing false);
        ((clock w + 1000 * N.of_nat (length (fetchHops (targetHost w))))%N,
         ShowToast {| title := "Traceroute complete";
                      description :=
                        "Found " +:+
                        toString (length (fetchHops (targetHost w))) +:+
                        " hops to " +:+ targetHost w;
                      destructive := false |})]
  ∧ hops (traceRun taken fetchHops w) = fetchHops (targetHost w)
  ∧ isTracing (traceRun taken fetchHops w) = false
  ∧ timers (traceRun taken fetchHops w) = []
  ∧ targetHost (traceRun taken fetchHops w) = targetHost w
  ∧ map_current (traceRun taken fetchHops w)
    = Some (drawn (fetchHops (targetHost w)) (cleared m)).
Proof.
  intros Hm Hq. rewrite (trace_finished taken fetchHops w m Hm Hq).
  destruct (started_frame w m Hm) as (Sj & Sh & Sc & St & Sm & Sq & Sg).
  destruct (revealed_frame (fetchHops (targetHost w)) (started w))
    as (Rj & Rh & Rc & Rt & Rm & Rq & Rg).
  rewrite Sm in Rm. rewrite Sq, Hq in Rq. rewrite Sc in Rc, Rj.
  destruct (finishTrace_frame
              {| mockHops := fetchHops (targetHost w);
                 index := length (fetchHops (targetHost w));
                 seen_targetHost := targetHost w |}
              (revealed (fetchHops (targetHost w)) (started w))
              (cleared m) Rm (lookup_delete_eq _ _))
    as (Fj & Fh & Ft & Fc & Fq & Fm).
  simpl in Fj, Fh, Fm. rewrite Fj, Fh, Ft, Fq, Fm, Rj, Rc, Rq, Sj.
  rewrite <- !app_assoc. repeat split.
  unfold finishTrace.
  rewrite (addNetworkPath_closed taken _ _ (cleared m) Rm)
    by (right; apply lookup_delete_eq).
  simpl. by rewrite Rg, Sg.
Qed.

End Trace.

(** C8. A trace started on an initialised map with no timer pending sets
    the tracing flag, clears the overlay and resets the hop list; then for
    each hop in order it waits on a 1000 ms timer and appends that hop
    when the timer fires, the first hop included; only after the last
    append it calls [addNetworkPath] with the full list, publishes the
    list and only then clears the tracing flag.  After [k] timers, [k]
    short of the number of hops, the first [k] hops are published, the
    trace is in progress and nothing is drawn. *)
Theorem trace_reveals_then_draws_then_completes taken
    (fetchHops : string → list NetworkHop) (w : State) (m : mapboxgl.Map) :
  map_current w = Some m →
  timers w = [] →
  journal (traceRun taken fetchHops w)
  = journal w
    ++ [(clock w, SetIsTracing true); (clock w, ClearNetworkPath);
        (clock w,
         ShowToast {| title := "Tracing route...";
                      description := "Starting traceroute to " +:+ targetHost w;
                      destructive := false |});
        (clock w, FetchHops (targetHost w)); (clock w, SetHops [])]
    ++ revealEntries (clock w) (fetchHops (targetHost w))
    ++ [((clock w + 1000 * N.of_nat (length (fetchHops (targetHost w))))%N,
         AddNetworkPath (fetchHops (targetHost w)));
        ((clock w + 1000 * N.of_nat (length (fetchHops (targetHost w))))%N,
         SetHops (fetchHops (targetHost w)));
        ((clock w + 1000 * N.of_nat (length (fetchHops (targetHost w))))%N,
         SetIsTracing false);
        ((clock w + 1000 * N.of_nat (length (fetchHops (targetHost w))))%N,
         ShowToast {| title := "Traceroute complete";
                      description :=
                        "Found " +:+
                        toString (length (fetchHops (targetHost w))) +:+
                        " hops to " +:+ targetHost w;
                      destructive := false |})]
  ∧ hops (traceRun taken fetchHops w) = fetchHops (targetHost w)
  ∧ isTracing (traceRun taken fetchHops w) = false
  ∧ timers (traceRun taken fetchHops w) = []
  ∧ (∀ k, k < length (fetchHops (targetHost w)) →
       hops (fireTimers taken k (executeTraceroute taken fetchHops w))
       = take k (fetchHops (targetHost w))
       ∧ isTracing (fireTimers taken k (executeTraceroute taken fetchHops w))
         = true
       ∧ pathOverlay <$>
           map_current
             (fireTimers taken k (executeTraceroute taken fetchHops w))
         = Some (None, None, [])).
Proof.
  intros Hm Hq.
  destruct (traceRun_frame taken fetchHops w m Hm Hq)
    as (Hj & Hh & Ht & Hq' & _ & _).
  split; [exact Hj|]. split; [exact Hh|]. split; [exact Ht|].
  split; [exact Hq'|].
  intros k Hk. rewrite (trace_in_progress taken fetchHops w m k Hm Hq Hk).
  destruct (started_frame w m Hm) as (_ & Sh & _ & St & Sm & _ & _).
  destruct (revealed_frame (take k (fetchHops (targetHost w))) (started w))
    as (_ & Rh & _ & Rt & Rm & _ & _).
  simpl. rewrite Rh, Rt, Rm, Sh, St, Sm. simpl.
  by rewrite pathOverlay_cleared.
Qed.

Lemma trace_reveals_then_draws_then_completes_witness :
  journal (traceRun mapboxgl.Raises mockTraceroute ready)
  = [(0, SetIsTracing true); (0, ClearNetworkPath);
     (0, ShowToast {| title := "Tracing route...";
                      description := "Starting traceroute to google.com";
                      destructive := false |});
     (0, FetchHops "google.com"); (0, SetHops [])]%N
    ++ revealEntries 0 (mockTraceroute "google.com")
    ++ [(4000, AddNetworkPath (mockTraceroute "google.com"));
        (4000, SetHops (mockTraceroute "google.com"));
        (4000, SetIsTracing false);
        (4000, ShowToast {| title := "Traceroute complete";
                            description := "Found 4 hops to google.com";
                            destructive := false |})]%N
  ∧ hops (traceRun mapboxgl.Raises mockTraceroute ready)
    = mockTraceroute "google.com"
  ∧ isTracing (traceRun mapboxgl.Raises mockTraceroute ready) = false.
Proof.
  destruct (trace_reveals_then_draws_then_completes
              mapboxgl.Raises mockTraceroute ready readyMap)
    as (Hj & Hh & Ht & _); [reflexivity | reflexivity |].
  split; [exact Hj | split; [exact Hh | exact Ht]].
Defined.

(** C9. With no map yet ([map.current] null), [executeTraceroute] only
    shows the "Map not ready" toast: the tracing flag, the hop list, the
    map, the timers and the clock are as before, and the journal grows by
    that toast alone, so nothing is cleared, fetched, scheduled or
    drawn. *)
Theorem trace_without_map_is_rejected taken
    (fetchHops : string → list NetworkHop) (w : State) :
  map_current w = None →
  executeTraceroute taken fetchHops w
  = toast {| title := "Map not ready";
             description := "Please enter your Mapbox token first";
             destructive := true |} w
  ∧ journal (executeTraceroute taken fetchHops w)
    = journal w
      ++ [(clock w,
           ShowToast {| title := "Map not ready";
                        description := "Please enter your Mapbox token first";
                        destructive := true |})]
  ∧ isTracing (executeTraceroute taken fetchHops w) = isTracing w
  ∧ hops (executeTraceroute taken fetchHops w) = hops w
  ∧ map_current (executeTraceroute taken fetchHops w) = None
  ∧ timers (executeTraceroute taken fetchHops w) = timers w
  ∧ frames (executeTraceroute taken fetchHops w) = frames w
  ∧ clock (executeTraceroute taken fetchHops w) = clock w.
Proof.
  intros Hm. unfold executeTraceroute. rewrite Hm. simpl.
  by repeat split.
Qed.

Lemma trace_without_map_is_rejected_witness :
  isTracing (executeTraceroute mapboxgl.Raises mockTraceroute mounted) = false
  ∧ hops (executeTraceroute mapboxgl.Raises mockTraceroute mounted) = []
  ∧ timers (executeTraceroute mapboxgl.Raises mockTraceroute mounted) = []
  ∧ journal (executeTraceroute mapboxgl.Raises mockTraceroute mounted)
    = [(0%N,
        ShowToast {| title := "Map not ready";
                     description := "Please enter your Mapbox token first";
                     destructive := true |})].
Proof.
  destruct (trace_without_map_is_rejected mapboxgl.Raises mockTraceroute
              mounted)
    as (_ & Hj & Ht & Hh & _ & Hq & _); [reflexivity |].
  split; [exact Ht | split; [exact Hh | split; [exact Hq | exact Hj]]].
Defined.

(** ** Overlapping traces *)








(** ** The camera loop *)

(** A tick of [rotateCamera] looks at the flag it closed over, never at
    the current one. *)
Lemma rotateCamera_reads_its_own_flag (self : RotateCamera) (w : State)
    (m : mapboxgl.Map) :
  map_current w = Some m →
  seen_isTracing self = false →
  frames (rotateCamera self w) = frames w ++ [self]
  ∧ mapboxgl.camera <$> map_current (rotateCamera self w)
    = Some (mapboxgl.camera m
            ++ [mapboxgl.EaseTo
                  (fst (mapboxgl.center m) + 0.1, snd (mapboxgl.center m))%Q
                  100]).
Proof. intros Hm Hf. unfold rotateCamera. by rewrite Hm, Hf. Qed.

Lemma initializeMap_captures_flag (token : string) (w : State) :
  mapContainer w = true →
  isTracing w = false →
  frames (initializeMap token w)
  = frames w ++ [{| seen_isTracing := false |}].
Proof.
  intros Hc Ht. unfold initializeMap. rewrite Hc, Ht. reflexivity.
Qed.

(** C4 (the code at the failing input). The map is initialised while no
    trace runs, then a trace starts: the tracing flag is set, yet the
    next animation frame still eases the camera and requests another
    frame, because the tick tests the flag of the render it was created
    in. *)
Theorem rotation_keeps_ticking_while_tracing :
  isTracing tracing = true
  ∧ frames tracing = [{| seen_isTracing := false |}]
  ∧ frames (animationFrame tracing) = [{| seen_isTracing := false |}]
  ∧ mapboxgl.camera <$> map_current tracing
    = Some [mapboxgl.EaseTo (0 + 0.1, 20)%Q 100]
  ∧ mapboxgl.camera <$> map_current (animationFrame tracing)
    = Some [mapboxgl.EaseTo (0 + 0.1, 20)%Q 100;
            mapboxgl.EaseTo (0 + 0.1 + 0.1, 20)%Q 100]
  ∧ isTracing (animationFrame tracing) = true.
Proof. vm_compute. repeat split. Qed.

(** * Further properties of the component *)

(** ** [clearNetworkPath] *)

(** X1. On an initialised map, whatever is drawn on it and whether or not
    the path layer, the path source or any hop marker is there,
    [clearNetworkPath] leaves no path source, no path layer and no hop
    marker. *)
Theorem clearNetworkPath_removes_path (w : State) (m : mapboxgl.Map) :
  map_current w = Some m →
  ∃ m', map_current (clearNetworkPath w) = Some m'
        ∧ pathOverlay m' = (None, None, []).
Proof.
  intros Hm. rewrite (clearNetworkPath_closed w m Hm).
  eexists. split; [reflexivity | apply pathOverlay_cleared].
Qed.

Lemma clearNetworkPath_removes_path_witness :
  pathOverlay tracedMap
  = (Some (coordinatesOf (mockTraceroute "google.com")), Some pathLineLayer,
     hopMarkers (mockTraceroute "google.com"))
  ∧ ∃ m', map_current (clearNetworkPath traced) = Some m'
          ∧ pathOverlay m' = (None, None, []).
Proof.
  split; [apply pathOverlay_drawn_cleared|].
  apply (clearNetworkPath_removes_path traced tracedMap). reflexivity.
Defined.

(** X2. [clearNetworkPath] touches nothing but the path: every other
    source and layer, the elements that are not hop markers (in their
    order), the camera centre and the camera commands stay, and so do the
    tracing flag, the hop list, the target, the timers, the frames and the
    clock. *)
Theorem clearNetworkPath_keeps_the_rest (w : State) (m : mapboxgl.Map) :
  map_current w = Some m →
  ∃ m', map_current (clearNetworkPath w) = Some m'
    ∧ (∀ sid, sid ≠ "network-path" →
         mapboxgl.sources m' !! sid = mapboxgl.sources m !! sid)
    ∧ (∀ lid, lid ≠ "network-path-line" →
         mapboxgl.layers m' !! lid = mapboxgl.layers m !! lid)
    ∧ mapboxgl.markers m'
      = filter (λ mk, mapboxgl.className (mapboxgl.element mk) ≠ "hop-marker")
               (mapboxgl.markers m)
    ∧ mapboxgl.center m' = mapboxgl.center m
    ∧ mapboxgl.camera m' = mapboxgl.camera m
    ∧ isTracing (clearNetworkPath w) = isTracing w
    ∧ hops (clearNetworkPath w) = hops w
    ∧ targetHost (clearNetworkPath w) = targetHost w
    ∧ timers (clearNetworkPath w) = timers w
    ∧ frames (clearNetworkPath w) = frames w
    ∧ clock (clearNetworkPath w) = clock w.
Proof.
  intros Hm. rewrite (clearNetworkPath_closed w m Hm).
  eexists. split; [reflexivity|]. simpl.
  split; [intros sid Hne; by apply lookup_delete_ne|].
  split; [intros lid Hne; by apply lookup_delete_ne|].
  by repeat split.
Qed.

Lemma clearNetworkPath_keeps_the_rest_witness :
  ∃ m', map_current (clearNetworkPath traced) = Some m'
    ∧ mapboxgl.center m' = mapboxgl.center tracedMap
    ∧ mapboxgl.camera m' = mapboxgl.camera tracedMap
    ∧ hops (clearNetworkPath traced) = hops traced.
Proof.
  destruct (clearNetworkPath_keeps_the_rest traced tracedMap)
    as (m' & Hm' & _ & _ & _ & Hc & Hcam & _ & Hh & _); [reflexivity|].
  exists m'. by repeat split.
Defined.

Lemma cleared_cleared (m : mapboxgl.Map) : cleared (cleared m) = cleared m.
Proof.
  unfold cleared. simpl. rewrite !delete_delete_eq.
  by rewrite list_filter_filter_l.
Qed.

(** X3. [clearNetworkPath] is idempotent on the map, initialised or not:
    clearing what has just been cleared changes nothing, and on a null
    map it leaves the map null. *)
Theorem clearNetworkPath_idempotent (w : State) :
  map_current (clearNetworkPath (clearNetworkPath w))
  = map_current (clearNetworkPath w)
  ∧ (map_current w = None → map_current (clearNetworkPath w) = None).
Proof.
  destruct (map_current w) as [m|] eqn:Hm.
  - rewrite (clearNetworkPath_closed w m Hm).
    rewrite (clearNetworkPath_closed _ (cleared m)) by reflexivity.
    simpl. by rewrite cleared_cleared.
  - rewrite (clearNetworkPath_null w Hm).
    rewrite clearNetworkPath_null by exact Hm. simpl. by rewrite Hm.
Qed.

Lemma clearNetworkPath_idempotent_witness :
  map_current (clearNetworkPath (clearNetworkPath mounted))
  = map_current (clearNetworkPath mounted)
  ∧ map_current (clearNetworkPath mounted) = None.
Proof.
  destruct (clearNetworkPath_idempotent mounted) as [Hi Hn].
  split; [exact Hi | apply Hn; reflexivity].
Defined.

(** ** [addNetworkPath] *)

(** X4. Where the engine raises on a taken source id, a draw on a map that
    still has the path source fails before it changes the map; and since
    the end of [executeTraceroute] has no handler, the rest of it is
    skipped: the hop list is not published, [setIsTracing(false)] is not
    called and no completion toast is shown. *)
Theorem rejected_draw_leaves_session_as_it_was (k : Reveal) (w : State)
    (m : mapboxgl.Map) :
  map_current w = Some m →
  is_Some (mapboxgl.sources m !! "network-path") →
  threw (addNetworkPath mapboxgl.Raises (mockHops k) w) = true
  ∧ map_current (stateOf (addNetworkPath mapboxgl.Raises (mockHops k) w))
    = Some m
  ∧ map_current (finishTrace mapboxgl.Raises k w) = Some m
  ∧ isTracing (finishTrace mapboxgl.Raises k w) = isTracing w
  ∧ hops (finishTrace mapboxgl.Raises k w) = hops w
  ∧ journal (finishTrace mapboxgl.Raises k w)
    = journal w
      ++ [(clock w, AddNetworkPath (mockHops k));
          (clock w, Rejected "There is already a source with this ID")].
Proof.
  intros Hm Hs. unfold finishTrace.
  rewrite (addNetworkPath_taken (mockHops k) w m Hm Hs). simpl.
  rewrite <- app_assoc. by repeat split.
Qed.

Lemma rejected_draw_leaves_session_as_it_was_witness :
  threw (addNetworkPath mapboxgl.Raises demoHops (set_isTracing true traced))
  = true
  ∧ isTracing
      (finishTrace mapboxgl.Raises
         {| mockHops := demoHops; index := 4;
            seen_targetHost := "example.com" |}
         (set_isTracing true traced))
    = true.
Proof.
  destruct (rejected_draw_leaves_session_as_it_was
              {| mockHops := demoHops; index := 4;
                 seen_targetHost := "example.com" |}
              (set_isTracing true traced) tracedMap)
    as (Ht & _ & _ & Hi & _); [reflexivity | by eexists |].
  split; [exact Ht | exact Hi].
Defined.

Lemma drawn_keeps (hopData : list NetworkHop) (m : mapboxgl.Map) :
  mapboxgl.markers m `prefix_of` mapboxgl.markers (drawn hopData m)
  ∧ (∀ sid, sid ≠ "network-path" →
       mapboxgl.sources (drawn hopData m) !! sid = mapboxgl.sources m !! sid)
  ∧ (∀ lid, lid ≠ "network-path-line" →
       mapboxgl.layers (drawn hopData m) !! lid = mapboxgl.layers m !! lid)
  ∧ (∀ l, mapboxgl.layers m !! "network-path-line" = Some l →
       mapboxgl.layers (drawn hopData m) !! "network-path-line" = Some l)
  ∧ mapboxgl.center (drawn hopData m) = mapboxgl.center m.
Proof.
  unfold drawn, mapboxgl.addLayer. simpl.
  split; [by apply prefix_app_r|].
  split; [intros sid Hne; by apply lookup_insert_ne|].
  destruct (mapboxgl.layers m !! "network-path-line") eqn:Hl; simpl.
  - repeat split; try done. intros l0 Hl0. congruence.
  - repeat split; try done. intros lid Hne. by apply lookup_insert_ne.
Qed.

(** X5. [addNetworkPath] never removes or rewrites what is there: on an
    initialised map, whether it returns or throws, the markers already
    placed remain a prefix of the markers, every other source and layer
    and an existing path line layer are kept, the camera centre stays, and
    the tracing flag, hop list, target, timers, frames and clock are not
    touched. *)
Theorem addNetworkPath_only_adds taken (hopData : list NetworkHop)
    (w : State) (m : mapboxgl.Map) :
  map_current w = Some m →
  ∃ m', map_current (stateOf (addNetworkPath taken hopData w)) = Some m'
    ∧ mapboxgl.markers m `prefix_of` mapboxgl.markers m'
    ∧ (∀ sid, sid ≠ "network-path" →
         mapboxgl.sources m' !! sid = mapboxgl.sources m !! sid)
    ∧ (∀ lid, lid ≠ "network-path-line" →
         mapboxgl.layers m' !! lid = mapboxgl.layers m !! lid)
    ∧ (∀ l, mapboxgl.layers m !! "network-path-line" = Some l →
         mapboxgl.layers m' !! "network-path-line" = Some l)
    ∧ mapboxgl.center m' = mapboxgl.center m
    ∧ isTracing (stateOf (addNetworkPath taken hopData w)) = isTracing w
    ∧ hops (stateOf (addNetworkPath taken hopData w)) = hops w
    ∧ targetHost (stateOf (addNetworkPath taken hopData w)) = targetHost w
    ∧ timers (stateOf (addNetworkPath taken hopData w)) = timers w
    ∧ frames (stateOf (addNetworkPath taken hopData w)) = frames w
    ∧ clock (stateOf (addNetworkPath taken hopData w)) = clock w.
Proof.
  intros Hm.
  destruct taken, (mapboxgl.sources m !! "network-path") as [c|] eqn:Hs.
  - rewrite (addNetworkPath_taken hopData w m Hm) by (by eexists).
    exists m. simpl. by repeat split.
  - rewrite (addNetworkPath_closed _ hopData w m Hm) by (by right).
    eexists. split; [reflexivity|]. simpl.
    destruct (drawn_keeps hopData m) as (? & ? & ? & ? & ?).
    by repeat split.
  - rewrite (addNetworkPath_closed _ hopData w m Hm) by (by left).
    eexists. split; [reflexivity|]. simpl.
    destruct (drawn_keeps hopData m) as (? & ? & ? & ? & ?).
    by repeat split.
  - rewrite (addNetworkPath_closed _ hopData w m Hm) by (by left).
    eexists. split; [reflexivity|]. simpl.
    destruct (drawn_keeps hopData m) as (? & ? & ? & ? & ?).
    by repeat split.
Qed.

Lemma addNetworkPath_only_adds_witness :
  ∃ m', map_current (stateOf (addNetworkPath mapboxgl.Replaces demoHops traced))
        = Some m'
    ∧ mapboxgl.markers tracedMap `prefix_of` mapboxgl.markers m'
    ∧ hops (stateOf (addNetworkPath mapboxgl.Replaces demoHops traced))
      = hops traced.
Proof.
  destruct (addNetworkPath_only_adds mapboxgl.Replaces demoHops traced
              tracedMap)
    as (m' & Hm' & Hp & _ & _ & _ & _ & _ & Hh & _); [reflexivity|].
  exists m'. by repeat split.
Defined.

Lemma inBounds_extend_old (c c' : mapboxgl.LngLat)
    (b : mapboxgl.LngLatBounds) :
  inBounds c b → inBounds c (mapboxgl.extend b c').
Proof.
  destruct b as [[sw ne]|]; [|done]. simpl.
  intros (H1 & H2 & H3 & H4). repeat split.
  - eapply Qle_trans; [apply Q.le_min_r | exact H1].
  - eapply Qle_trans; [exact H2 | apply Q.le_max_r].
  - eapply Qle_trans; [apply Q.le_min_r | exact H3].
  - eapply Qle_trans; [exact H4 | apply Q.le_max_r].
Qed.

Lemma inBounds_extend_new (c : mapboxgl.LngLat) (b : mapboxgl.LngLatBounds) :
  inBounds c (mapboxgl.extend b c).
Proof.
  destruct b as [[sw ne]|]; simpl.
  - repeat split;
      [apply Q.le_min_l | apply Q.le_max_l | apply Q.le_min_l
       | apply Q.le_max_l].
  - repeat split; apply Qle_refl.
Qed.

Lemma inBounds_foldl (l : list mapboxgl.LngLat) (b : mapboxgl.LngLatBounds)
    (c : mapboxgl.LngLat) :
  inBounds c b → inBounds c (foldl mapboxgl.extend b l).
Proof.
  revert b. induction l as [|c' l IH]; intros b Hb; [done|].
  simpl. apply IH. by apply inBounds_extend_old.
Qed.

Lemma inBounds_foldl_elem (l : list mapboxgl.LngLat)
    (b : mapboxgl.LngLatBounds) (c : mapboxgl.LngLat) :
  c ∈ l → inBounds c (foldl mapboxgl.extend b l).
Proof.
  revert b. induction l as [|c' l IH]; intros b Hc.
  - by apply elem_of_nil in Hc.
  - apply elem_of_cons in Hc as [-> | Hc]; simpl.
    + apply inBounds_foldl, inBounds_extend_new.
    + by apply IH.
Qed.

(** X6. Drawing a hop list that is not empty issues exactly one camera
    command, a [fitBounds] with padding 100, and the box it passes
    contains the position of every hop drawn; for a single hop the box is
    that hop's point (both corners). *)
Theorem fitBounds_box_covers_hops taken (hopData : list NetworkHop)
    (w : State) (m : mapboxgl.Map) :
  map_current w = Some m →
  mapboxgl.sources m !! "network-path" = None →
  hopData ≠ [] →
  ∃ w' m',
    addNetworkPath taken hopData w = Normal w'
    ∧ map_current w' = Some m'
    ∧ mapboxgl.camera m'
      = mapboxgl.camera m
        ++ [mapboxgl.FitBounds
              (foldl mapboxgl.extend None (coordinatesOf hopData)) 100]
    ∧ (∀ hop, hop ∈ hopData →
         inBounds (longitude hop, latitude hop)
                  (foldl mapboxgl.extend None (coordinatesOf hopData)))
    ∧ (∀ hop, hopData = [hop] →
         foldl mapboxgl.extend None (coordinatesOf hopData)
         = Some ((longitude hop, latitude hop),
                 (longitude hop, latitude hop))).
Proof.
  intros Hm Hs _.
  rewrite (addNetworkPath_closed taken hopData w m Hm) by (by right).
  eexists _, _. split; [reflexivity|]. split; [reflexivity|].
  split; [reflexivity|]. split.
  - intros hop Hin. apply inBounds_foldl_elem.
    unfold coordinatesOf.
    apply (list_elem_of_fmap_2 (λ hop, (longitude hop, latitude hop))).
    exact Hin.
  - by intros hop ->.
Qed.

Lemma fitBounds_box_covers_hops_witness :
  ∃ w' m',
    addNetworkPath mapboxgl.Raises demoHops ready = Normal w'
    ∧ map_current w' = Some m'
    ∧ mapboxgl.camera m'
      = mapboxgl.camera readyMap
        ++ [mapboxgl.FitBounds
              (foldl mapboxgl.extend None (coordinatesOf demoHops)) 100]
    ∧ (∀ hop, hop ∈ demoHops →
         inBounds (longitude hop, latitude hop)
                  (foldl mapboxgl.extend None (coordinatesOf demoHops))).
Proof.
  destruct (fitBounds_box_covers_hops mapboxgl.Raises demoHops ready readyMap)
    as (w' & m' & H1 & H2 & H3 & H4 & _);
    [reflexivity | reflexivity | discriminate |].
  exists w', m'.
  split; [exact H1 | split; [exact H2 | split; [exact H3 | exact H4]]].
Defined.

Lemma markerColor_cases (i n : nat) :
  (i = 0 ∧ markerColor i n = "#00ff00")
  ∨ (0 < i ∧ Z.of_nat i = (Z.of_nat n - 1)%Z ∧ markerColor i n = "#ff0040")
  ∨ (0 < i ∧ Z.of_nat i ≠ (Z.of_nat n - 1)%Z ∧ markerColor i n = "#00ffff").
Proof.
  unfold markerColor.
  destruct (Z.eqb_spec (Z.of_nat i) 0); [left; split; [lia | done]|].
  right.
  destruct (Z.eqb_spec (Z.of_nat i) (Z.of_nat n - 1));
    [left | right]; repeat split; (lia || done).
Qed.

(** X7. The colours tell the positions apart: among the markers of a
    drawn hop list, a marker has the origin colour exactly when it is the
    first, the destination colour exactly when it is the last and not
    the first, and the relay colour exactly when it is neither. *)
Theorem marker_colour_iff_position (hopData : list NetworkHop) (i : nat)
    (mk : mapboxgl.Marker) :
  hopMarkers hopData !! i = Some mk →
  (styleOf mk = ("#00ff00", "#00ff00") ↔ i = 0)
  ∧ (styleOf mk = ("#ff0040", "#ff0040")
     ↔ 0 < i ∧ i = length hopData - 1)
  ∧ (styleOf mk = ("#00ffff", "#00ffff")
     ↔ 0 < i ∧ i < length hopData - 1).
Proof.
  intros Hmk.
  assert (i < length hopData) as Hi.
  { apply lookup_lt_Some in Hmk. unfold hopMarkers in Hmk.
    by rewrite length_imap in Hmk. }
  pose proof (style_at hopData i Hi) as Hst.
  rewrite Hmk in Hst. change (Some (styleOf mk) = Some
    (markerColor i (length hopData), markerColor i (length hopData))) in Hst.
  assert (styleOf mk
          = (markerColor i (length hopData), markerColor i (length hopData)))
    as -> by congruence.
  destruct (markerColor_cases i (length hopData))
    as [[H0 ->] | [(Hp & Hl & ->) | (Hp & Hl & ->)]].
  - repeat split; try done; try lia; intros; try discriminate; lia.
  - repeat split; try done; try lia; intros; try discriminate; lia.
  - repeat split; try done; try lia; intros; try discriminate; lia.
Qed.

Lemma marker_colour_iff_position_witness :
  ∃ mk, hopMarkers demoHops !! 3 = Some mk
        ∧ (styleOf mk = ("#ff0040", "#ff0040")
           ↔ 0 < 3 ∧ 3 = length demoHops - 1).
Proof.
  eexists. split; [reflexivity|].
  eapply (marker_colour_iff_position demoHops 3). reflexivity.
Defined.

(** X8. The popup on the map and the card in the details panel always
    agree on the band of a latency, and every number falls in exactly one
    band, negative ones in the good band: no lower bound is tested. *)
Theorem popup_and_panel_agree (l : number) :
  ((l < 20)%Q
   ∧ popupLatencyColor l = "#00ff00"
   ∧ getLatencyColor l = "text-latency-good")
  ∨ ((20 <= l)%Q ∧ (l < 100)%Q
     ∧ popupLatencyColor l = "#ffff00"
     ∧ getLatencyColor l = "text-latency-warning")
  ∨ ((100 <= l)%Q
     ∧ popupLatencyColor l = "#ff0040"
     ∧ getLatencyColor l = "text-latency-error").
Proof.
  destruct (lessThan l 20%Q) eqn:H20.
  - left. apply lessThan_lt in H20. split; [done | by apply band_good].
  - right. apply lessThan_ge in H20.
    destruct (lessThan l 100%Q) eqn:H100.
    + left. apply lessThan_lt in H100. by split; [| split; [| apply band_warning]].
    + right. apply lessThan_ge in H100. split; [done | by apply band_error].
Qed.

(** ** The camera loop and the scheduler side by side *)

Lemma rotateCamera_frame (self : RotateCamera) (w : State) :
  mapboxgl.overlay <$> map_current (rotateCamera self w)
  = mapboxgl.overlay <$> map_current w
  ∧ isTracing (rotateCamera self w) = isTracing w
  ∧ hops (rotateCamera self w) = hops w
  ∧ targetHost (rotateCamera self w) = targetHost w
  ∧ timers (rotateCamera self w) = timers w
  ∧ clock (rotateCamera self w) = clock w
  ∧ journal (rotateCamera self w) = journal w.
Proof.
  unfold rotateCamera.
  destruct (map_current w) as [m|] eqn:Hm; [|by rewrite Hm].
  destruct (seen_isTracing self); [by rewrite Hm | done].
Qed.

Lemma rotateCamera_fold_frame (cbs : list RotateCamera) (w : State) :
  mapboxgl.overlay <$> map_current (foldl (λ w cb, rotateCamera cb w) w cbs)
  = mapboxgl.overlay <$> map_current w
  ∧ isTracing (foldl (λ w cb, rotateCamera cb w) w cbs) = isTracing w
  ∧ hops (foldl (λ w cb, rotateCamera cb w) w cbs) = hops w
  ∧ targetHost (foldl (λ w cb, rotateCamera cb w) w cbs) = targetHost w
  ∧ timers (foldl (λ w cb, rotateCamera cb w) w cbs) = timers w
  ∧ clock (foldl (λ w cb, rotateCamera cb w) w cbs) = clock w
  ∧ journal (foldl (λ w cb, rotateCamera cb w) w cbs) = journal w.
Proof.
  revert w. induction cbs as [|cb cbs IH]; intros w; [done|].
  simpl. destruct (IH (rotateCamera cb w)) as (-> & -> & -> & -> & -> & -> & ->).
  apply rotateCamera_frame.
Qed.

(** X9. An animation frame, however many camera loops are pending and
    whatever they captured, leaves the sources, layers and markers of the
    map as they are, and does not touch the tracing flag, the hop list,
    the target, the timers, the clock or the journal: the camera loop only
    ever moves the camera. *)
Theorem animationFrame_only_moves_camera (w : State) :
  mapboxgl.overlay <$> map_current (animationFrame w)
  = mapboxgl.overlay <$> map_current w
  ∧ isTracing (animationFrame w) = isTracing w
  ∧ hops (animationFrame w) = hops w
  ∧ targetHost (animationFrame w) = targetHost w
  ∧ timers (animationFrame w) = timers w
  ∧ clock (animationFrame w) = clock w
  ∧ journal (animationFrame w) = journal w.
Proof.
  unfold animationFrame.
  apply (rotateCamera_fold_frame (frames w) (set_frames [] w)).
Qed.

Lemma animationFrame_single (self : RotateCamera) (w : State)
    (m : mapboxgl.Map) :
  frames w = [self] →
  seen_isTracing self = false →
  map_current w = Some m →
  frames (animationFrame w) = [self]
  ∧ map_current (animationFrame w)
    = Some (mapboxgl.easeTo
              (fst (mapboxgl.center m) + 0.1, snd (mapboxgl.center m))%Q
              100 m).
Proof.
  intros Hf Hs Hm. unfold animationFrame. rewrite Hf. simpl.
  unfold rotateCamera. simpl. by rewrite Hm, Hs.
Qed.

(** X10. The camera loop does not end on its own: with a map and one loop
    running (created while not tracing), after any number [n] of
    animation frames that loop is again the one pending callback and [n]
    camera commands have been issued, each an ease of 100 ms; the first
    of them aims 0.1 degree east of the centre the map had, at the same
    latitude. *)
Theorem rotation_loop_keeps_running (n : nat) (self : RotateCamera)
    (w : State) (m : mapboxgl.Map) :
  frames w = [self] →
  seen_isTracing self = false →
  map_current w = Some m →
  frames (Nat.iter n animationFrame w) = [self]
  ∧ ∃ m' eases,
      map_current (Nat.iter n animationFrame w) = Some m'
      ∧ mapboxgl.camera m' = mapboxgl.camera m ++ eases
      ∧ length eases = n
      ∧ Forall (λ c, ∃ target, c = mapboxgl.EaseTo target 100) eases
      ∧ (0 < n →
         eases !! 0
         = Some (mapboxgl.EaseTo
                   (fst (mapboxgl.center m) + 0.1,
                    snd (mapboxgl.center m))%Q 100)).
Proof.
  intros Hf Hs Hm. induction n as [|n IH].
  - simpl. split; [done|]. exists m, []. rewrite app_nil_r.
    repeat split; try done. lia.
  - destruct IH as (Hfn & m' & eases & Hm' & Hcam & Hlen & Hall & Hfirst).
    simpl Nat.iter.
    destruct (animationFrame_single self _ m' Hfn Hs Hm') as [Hf' Hm''].
    split; [exact Hf'|].
    eexists _, (eases ++ [mapboxgl.EaseTo _ 100]).
    split; [exact Hm''|]. simpl.
    split; [by rewrite Hcam, app_assoc|].
    split; [rewrite length_app; simpl; lia|].
    split; [apply Forall_app; split; [done | by repeat econstructor]|].
    intros _. destruct n as [|n].
    + destruct eases; [|done]. simpl in Hm'.
      rewrite Hm in Hm'. injection Hm' as <-. done.
    + rewrite lookup_app_l by lia. apply Hfirst. lia.
Qed.

Lemma rotation_loop_keeps_running_witness :
  frames (Nat.iter 10 animationFrame ready) = [{| seen_isTracing := false |}]
  ∧ ∃ m' eases,
      map_current (Nat.iter 10 animationFrame ready) = Some m'
      ∧ mapboxgl.camera m' = mapboxgl.camera readyMap ++ eases
      ∧ length eases = 10.
Proof.
  destruct (rotation_loop_keeps_running 10
              {| seen_isTracing := false |} ready readyMap)
    as (Hf & m' & eases & Hm' & Hcam & Hlen & _);
    [reflexivity | reflexivity | reflexivity |].
  split; [exact Hf|]. exists m', eases.
  split; [exact Hm' | split; [exact Hcam | exact Hlen]].
Defined.

Section Frames.

Variable taken : mapboxgl.OnTakenId.

Lemma frames_addNetworkPath (hopData : list NetworkHop) (w : State) :
  frames (stateOf (addNetworkPath taken hopData w)) = frames w.
Proof.
  unfold addNetworkPath. simpl.
  destruct (map_current w) as [m|]; [|done].
  by destruct (mapboxgl.addSource _ _ _ _).
Qed.

Lemma frames_clearNetworkPath (w : State) :
  frames (clearNetworkPath w) = frames w.
Proof. unfold clearNetworkPath. simpl. by destruct (map_current w). Qed.

Lemma frames_finishTrace (k : Reveal) (w : State) :
  frames (finishTrace taken k w) = frames w.
Proof.
  unfold finishTrace. pose proof (frames_addNetworkPath (mockHops k) w) as Hf.
  by destruct (addNetworkPath taken (mockHops k) w).
Qed.

Lemma frames_revealLoop (k : Reveal) (w : State) :
  frames (revealLoop taken k w) = frames w.
Proof.
  unfold revealLoop. destruct (_ <? _); [done | apply frames_finishTrace].
Qed.

Lemma frames_fireTimer (w : State) : frames (fireTimer taken w) = frames w.
Proof.
  unfold fireTimer. destruct (timers w) as [|[due k] q]; [done|].
  unfold resumeReveal. rewrite frames_revealLoop.
  by destruct (mockHops k !! index k).
Qed.

Lemma frames_executeTraceroute (fetchHops : string → list NetworkHop)
    (w : State) :
  frames (executeTraceroute taken fetchHops w) = frames w.
Proof.
  unfold executeTraceroute. destruct (map_current w) as [m|]; [|done].
  rewrite frames_revealLoop. simpl. by rewrite frames_clearNetworkPath.
Qed.

End Frames.

(** X11. Nothing on the trace path starts, stops or restarts a camera
    loop: [executeTraceroute], the trace button and every timer firing,
    whether the draw at the end succeeds or throws, leave the pending
    animation frame callbacks exactly as they were. *)
Theorem trace_never_touches_camera_loop taken
    (fetchHops : string → list NetworkHop) (w : State) (n : nat) :
  frames (executeTraceroute taken fetchHops w) = frames w
  ∧ frames (clickTraceRoute taken fetchHops w) = frames w
  ∧ frames (fireTimer taken w) = frames w
  ∧ frames (fireTimers taken n w) = frames w.
Proof.
  split; [apply frames_executeTraceroute|].
  split; [unfold clickTraceRoute; destruct (traceDisabled w);
          [done | apply frames_executeTraceroute]|].
  split; [apply frames_fireTimer|].
  revert w. induction n as [|n IH]; intros w; [done|].
  simpl. rewrite IH. apply frames_fireTimer.
Qed.

(** X12. A tick does nothing and is not requested again when there is no
    map or when its closure captured [isTracing = true]: if that holds of
    every pending callback, one animation frame empties the queue,
    changes nothing else, and all later frames are idle. *)
Theorem dead_loops_stay_dead (n : nat) (w : State) :
  map_current w = None
  ∨ Forall (λ cb, seen_isTracing cb = true) (frames w) →
  Nat.iter (S n) animationFrame w = set_frames [] w.
Proof.
  intros Hdead.
  assert (animationFrame w = set_frames [] w) as Hone.
  { unfold animationFrame.
    assert (∀ cbs v, map_current v = None
                     ∨ Forall (λ cb, seen_isTracing cb = true) cbs →
                     foldl (λ w cb, rotateCamera cb w) v cbs = v) as Hfold.
    { induction cbs as [|cb cbs IH]; intros v Hv; [done|]. simpl.
      assert (rotateCamera cb v = v) as ->.
      { unfold rotateCamera. destruct (map_current v) as [m|]; [|done].
        destruct Hv as [Hv | Hv]; [done|].
        apply Forall_cons in Hv as [-> _]. done. }
      apply IH. destruct Hv as [Hv | Hv]; [by left|].
      right. by apply Forall_cons in Hv as [_ Hv]. }
    apply Hfold. simpl. exact Hdead. }
  induction n as [|n IH]; [exact Hone|].
  change (animationFrame (Nat.iter (S n) animationFrame w) = set_frames [] w).
  rewrite IH. unfold animationFrame. simpl. by destruct w.
Qed.

Lemma dead_loops_stay_dead_witness :
  Nat.iter 3 animationFrame
    (set_frames [{| seen_isTracing := true |}] ready)
  = set_frames [] (set_frames [{| seen_isTracing := true |}] ready).
Proof.
  apply (dead_loops_stay_dead 2
           (set_frames [{| seen_isTracing := true |}] ready)).
  right. repeat constructor.
Defined.

(** ** Initialising the map *)

Lemma initializeMap_cases (token : string) (w : State) :
  (mapContainer w = false → initializeMap token w = w)
  ∧ (mapContainer w = true →
     ∃ m, map_current (initializeMap token w) = Some m
       ∧ mapboxgl.sources m = ∅
       ∧ mapboxgl.layers m = ∅
       ∧ mapboxgl.markers m
         = match map_current w with
           | Some old => mapboxgl.markers old
           | None => []
           end
       ∧ accessToken (initializeMap token w) = token
       ∧ frames (initializeMap token w)
         = frames w
           ++ (if isTracing w then [] else [{| seen_isTracing := false |}])
       ∧ hops (initializeMap token w) = hops w
       ∧ isTracing (initializeMap token w) = isTracing w
       ∧ timers (initializeMap token w) = timers w).
Proof.
  unfold initializeMap. split; intros Hc; rewrite Hc; [done|]. simpl.
  unfold rotateCamera. simpl.
  destruct (isTracing w) eqn:Ht; simpl.
  - eexists. split; [reflexivity|]. rewrite app_nil_r. by repeat split.
  - eexists. split; [reflexivity|]. by repeat split.
Qed.

(** X13. [initializeMap] has no guard against a second call: with the
    container mounted it always installs a new map, which has no source
    and no layer, so a path line drawn before is gone, while the marker
    elements already in the document stay there; it stores the token and,
    unless a trace is running, adds one more camera loop to those
    pending; the hop list and the tracing flag are not reset.  Without
    the container it does nothing. *)
Theorem initializeMap_installs_fresh_map (token : string) (w : State) :
  (mapContainer w = false → initializeMap token w = w)
  ∧ (mapContainer w = true →
     ∃ m, map_current (initializeMap token w) = Some m
       ∧ mapboxgl.sources m = ∅
       ∧ mapboxgl.layers m = ∅
       ∧ mapboxgl.markers m
         = match map_current w with
           | Some old => mapboxgl.markers old
           | None => []
           end
       ∧ accessToken (initializeMap token w) = token
       ∧ frames (initializeMap token w)
         = frames w
           ++ (if isTracing w then [] else [{| seen_isTracing := false |}])
       ∧ hops (initializeMap token w) = hops w
       ∧ isTracing (initializeMap token w) = isTracing w
       ∧ timers (initializeMap token w) = timers w).
Proof. apply initializeMap_cases. Qed.

Lemma initializeMap_installs_fresh_map_witness :
  ∃ m, map_current (initializeMap "pk.other" traced) = Some m
    ∧ pathOverlay m = (None, None, hopMarkers (mockTraceroute "google.com"))
    ∧ hops (initializeMap "pk.other" traced) = mockTraceroute "google.com"
    ∧ frames (initializeMap "pk.other" traced)
      = [{| seen_isTracing := false |}; {| seen_isTracing := false |}].
Proof.
  destruct (initializeMap_installs_fresh_map "pk.other" traced) as [_ Hinit].
  destruct Hinit as (m & Hm & Hs & Hl & Hk & _ & Hf & Hh & _); [reflexivity|].
  exists m. split; [exact Hm|]. split; [|split; [exact Hh | exact Hf]].
  unfold pathOverlay, hopMarkerElements. rewrite Hs, Hl, Hk. by vm_compute.
Defined.

(** X14. [handleTokenSubmit] ignores an input that [trim] empties: no
    map, no toast, no change.  Any other input initialises the map with
    the trimmed text as the token and shows the "Map initialized" toast;
    the toast is shown as well when [initializeMap] returned early for
    want of the container, in which case the map is as it was. *)
Theorem handleTokenSubmit_blank_or_initialises (input : string) (w : State) :
  (trim input = "" → handleTokenSubmit input w = w)
  ∧ (trim input ≠ "" →
     journal (handleTokenSubmit input w)
     = journal w
       ++ [(clock w,
            ShowToast {| title := "Map initialized";
                         description :=
                           "You can now start tracing network routes!";
                         destructive := false |})]
     ∧ (mapContainer w = true →
        accessToken (handleTokenSubmit input w) = trim input
        ∧ is_Some (map_current (handleTokenSubmit input w)))
     ∧ (mapContainer w = false →
        map_current (handleTokenSubmit input w) = map_current w)).
Proof.
  unfold handleTokenSubmit.
  split; intros Hb; [by rewrite Hb|].
  destruct (trim input) as [|c r] eqn:Htrim; [done|]. simpl truthy. cbv iota.
  destruct (initializeMap_cases (String c r) w) as [Hno Hyes].
  split; [|split].
  - destruct (mapContainer w) eqn:Hc.
    + unfold initializeMap. rewrite Hc. simpl. unfold rotateCamera. simpl.
      by destruct (isTracing w).
    + by rewrite Hno.
  - intros Hc. destruct (Hyes Hc) as (m & Hm & _ & _ & _ & Ht & _).
    split; [exact Ht | by eexists].
  - intros Hc. by rewrite (Hno Hc).
Qed.

Lemma handleTokenSubmit_blank_or_initialises_witness :
  handleTokenSubmit blankSample mounted = mounted
  ∧ accessToken (handleTokenSubmit (blankSample +:+ "pk.demo ") mounted)
    = "pk.demo"
  ∧ is_Some (map_current
               (handleTokenSubmit (blankSample +:+ "pk.demo ") mounted)).
Proof.
  destruct (handleTokenSubmit_blank_or_initialises blankSample mounted)
    as [Hblank _].
  destruct (handleTokenSubmit_blank_or_initialises
              (blankSample +:+ "pk.demo ") mounted)
    as [_ Hinit].
  split; [apply Hblank; reflexivity|].
  destruct Hinit as (_ & Hyes & _); [by vm_compute|].
  apply Hyes. reflexivity.
Defined.

(** ** What is rendered *)

(** X15. In every render exactly one of the token form and the trace
    controls is there, and the "token required" card comes and goes with
    the form; the hop panel is there exactly when the hop list is not
    empty, with one card per hop in list order. *)
Theorem render_form_xor_controls (mapboxToken : option string) (w : State) :
  tokenForm (render mapboxToken w) = negb (traceControls (render mapboxToken w))
  ∧ tokenRequiredCard (render mapboxToken w) = tokenForm (render mapboxToken w)
  ∧ (hopPanel (render mapboxToken w) = None ↔ hops w = [])
  ∧ (∀ cards, hopPanel (render mapboxToken w) = Some cards →
       card_hop <$> cards = hop_id <$> hops w
       ∧ card_latency_class <$> cards
         = (λ hop, getLatencyColor (latency hop)) <$> hops w).
Proof.
  unfold render. simpl. split; [|split; [done | split]].
  - by destruct (truthyProp mapboxToken), (truthyRef (map_current w)).
  - destruct (hops w) as [|hop l]; simpl; [done|]. split; discriminate.
  - intros cards. destruct (0 <? length (hops w)); [|discriminate].
    intros [= <-]. rewrite <- !list_fmap_compose. done.
Qed.

(** X16. The [mapboxToken] prop hides the token form but is never handed
    to [initializeMap]: with a non-empty prop and no map, every render
    shows the trace controls and no form, and a click on the trace button
    leaves the map null, the session idle as it was, and sets no timer. *)
Theorem mapboxToken_prop_never_initialises taken
    (fetchHops : string → list NetworkHop) (mapboxToken : option string)
    (w : State) :
  truthyProp mapboxToken = true →
  map_current w = None →
  tokenForm (render mapboxToken w) = false
  ∧ traceControls (render mapboxToken w) = true
  ∧ map_current (clickTraceRoute taken fetchHops w) = None
  ∧ isTracing (clickTraceRoute taken fetchHops w) = isTracing w
  ∧ hops (clickTraceRoute taken fetchHops w) = hops w
  ∧ timers (clickTraceRoute taken fetchHops w) = timers w.
Proof.
  intros Ht Hm. unfold render. simpl. rewrite Ht. simpl.
  split; [done|]. split; [done|].
  unfold clickTraceRoute. destruct (traceDisabled w); [done|].
  unfold executeTraceroute. rewrite Hm. simpl. by rewrite Hm.
Qed.

Lemma mapboxToken_prop_never_initialises_witness :
  tokenForm (render (Some "pk.prop") mounted) = false
  ∧ traceControls (render (Some "pk.prop") mounted) = true
  ∧ map_current (clickTraceRoute mapboxgl.Raises mockTraceroute mounted)
    = None.
Proof.
  destruct (mapboxToken_prop_never_initialises mapboxgl.Raises mockTraceroute
              (Some "pk.prop") mounted)
    as (Hf & Hc & Hm & _); [reflexivity | reflexivity |].
  split; [exact Hf | split; [exact Hc | exact Hm]].
Defined.

(** X17. The details panel follows the reveal of a hop list that is not
    empty: right after the trace has started it is hidden, after [k]
    timers it lists cards for the first [k] hops, and all the while the
    target input and the trace button are disabled and the button reads
    "Tracing..."; when the trace is over the panel lists every hop, the
    button reads "Trace Route" and the input is enabled again. *)
Theorem panel_follows_reveal taken (fetchHops : string → list NetworkHop)
    (mapboxToken : option string) (w : State) (m : mapboxgl.Map) :
  map_current w = Some m →
  timers w = [] →
  fetchHops (targetHost w) ≠ [] →
  (∀ k, k < length (fetchHops (targetHost w)) →
     hopPanel (render mapboxToken
                 (fireTimers taken k (executeTraceroute taken fetchHops w)))
     = match k with
       | 0 => None
       | S _ => Some (hopCard <$> take k (fetchHops (targetHost w)))
       end
     ∧ targetInputDisabled
         (render mapboxToken
            (fireTimers taken k (executeTraceroute taken fetchHops w)))
       = true
     ∧ traceButtonDisabled
         (render mapboxToken
            (fireTimers taken k (executeTraceroute taken fetchHops w)))
       = true
     ∧ traceButtonLabel
         (render mapboxToken
            (fireTimers taken k (executeTraceroute taken fetchHops w)))
       = "Tracing...")
  ∧ hopPanel (render mapboxToken (traceRun taken fetchHops w))
    = Some (hopCard <$> fetchHops (targetHost w))
  ∧ targetInputDisabled (render mapboxToken (traceRun taken fetchHops w))
    = false
  ∧ traceButtonLabel (render mapboxToken (traceRun taken fetchHops w))
    = "Trace Route".
Proof.
  intros Hm Hq Hne. split.
  - intros k Hk.
    rewrite (trace_in_progress taken fetchHops w m k Hm Hq Hk).
    destruct (started_frame w m Hm) as (_ & Sh & _ & St & _).
    destruct (revealed_frame (take k (fetchHops (targetHost w))) (started w))
      as (_ & Rh & _ & Rt & _).
    unfold render, traceDisabled. simpl. rewrite Rh, Rt, Sh, St. simpl.
    rewrite length_take, Nat.min_l by lia.
    by destruct k.
  - destruct (traceRun_frame taken fetchHops w m Hm Hq)
      as (_ & Hh & Ht & _ & Hg & _).
    unfold render. simpl. rewrite Hh, Ht.
    by destruct (fetchHops (targetHost w)).
Qed.

Lemma panel_follows_reveal_witness :
  hopPanel (render None
              (fireTimers mapboxgl.Raises 2
                 (executeTraceroute mapboxgl.Raises mockTraceroute ready)))
  = Some (hopCard <$> take 2 (mockTraceroute "google.com"))
  ∧ traceButtonLabel (render None traced) = "Trace Route".
Proof.
  destruct (panel_follows_reveal mapboxgl.Raises mockTraceroute None ready
              readyMap)
    as (Hk & _ & _ & Hl); [reflexivity | reflexivity | discriminate |].
  split; [|exact Hl].
  destruct (Hk 2) as (Hp & _); [simpl; lia|]. exact Hp.
Defined.

(** ** Whole traces *)

(** X18. A trace of a hop list that is not empty, with no animation frame
    in between, issues exactly one camera command: the bounds fit of its
    hops with padding 100, after the commands the map had received. *)
Theorem trace_fits_bounds_once taken (fetchHops : string → list NetworkHop)
    (w : State) (m : mapboxgl.Map) :
  map_current w = Some m →
  timers w = [] →
  fetchHops (targetHost w) ≠ [] →
  ∃ m', map_current (traceRun taken fetchHops w) = Some m'
    ∧ mapboxgl.camera m'
      = mapboxgl.camera m
        ++ [mapboxgl.FitBounds
              (foldl mapboxgl.extend None
                     (coordinatesOf (fetchHops (targetHost w)))) 100].
Proof.
  intros Hm Hq _.
  destruct (traceRun_frame taken fetchHops w m Hm Hq)
    as (_ & _ & _ & _ & _ & Hm').
  eexists. split; [exact Hm'|]. done.
Qed.

Lemma trace_fits_bounds_once_witness :
  ∃ m', map_current traced = Some m'
    ∧ mapboxgl.camera m'
      = mapboxgl.camera readyMap
        ++ [mapboxgl.FitBounds
              (foldl mapboxgl.extend None
                     (coordinatesOf (mockTraceroute "google.com"))) 100].
Proof.
  destruct (trace_fits_bounds_once mapboxgl.Raises mockTraceroute ready
              readyMap)
    as (m' & Hm' & Hc); [reflexivity | reflexivity | discriminate |].
  exists m'. split; [exact Hm' | exact Hc].
Defined.

(** ** The overlay and the session stay consistent *)

Lemma pathOverlay_of_overlay (m m' : mapboxgl.Map) :
  mapboxgl.overlay m' = mapboxgl.overlay m → pathOverlay m' = pathOverlay m.
Proof.
  unfold mapboxgl.overlay, pathOverlay, hopMarkerElements.
  by intros [= -> -> ->].
Qed.

Lemma pathOverlay_drawn_on_clear (hopData : list NetworkHop)
    (m : mapboxgl.Map) :
  pathOverlay m = (None, None, []) →
  pathOverlay (drawn hopData m)
  = (Some (coordinatesOf hopData), Some pathLineLayer, hopMarkers hopData).
Proof.
  unfold pathOverlay, hopMarkerElements, drawn, mapboxgl.addLayer.
  intros [= Hs Hl Hk]. simpl. rewrite Hl. simpl.
  rewrite !lookup_insert_eq, filter_app, Hk, hopMarkers_are_hop_markers.
  done.
Qed.

Lemma Consistent_same_overlay (w w' : State) :
  mapboxgl.overlay <$> map_current w' = mapboxgl.overlay <$> map_current w →
  isTracing w' = isTracing w →
  timers w' = timers w →
  hops w' = hops w →
  Consistent w → Consistent w'.
Proof.
  intros Ho Ht Hq Hh (m & Hm & Hcase).
  rewrite Hm in Ho. destruct (map_current w') as [m'|] eqn:Hm'; [|done].
  apply (inj Some) in Ho.
  exists m'. split; [done|].
  rewrite (pathOverlay_of_overlay m m' Ho), Ht, Hq, Hh. exact Hcase.
Qed.

Section Invariant.

Variable taken : mapboxgl.OnTakenId.
Variable fetchHops : string → list NetworkHop.

Lemma Consistent_executeTraceroute (w : State) :
  isTracing w = false →
  Consistent w → Consistent (executeTraceroute taken fetchHops w).
Proof.
  intros Hidle (m & Hm & Hcase).
  destruct Hcase as [(_ & Hq & _) | (Ht & _)]; [|congruence].
  rewrite (executeTraceroute_started taken fetchHops w m Hm).
  destruct (started_frame w m Hm) as (_ & Sh & _ & St & Sm & Sq & _).
  rewrite Hq in Sq. revert Sh St Sm Sq.
  generalize (started w). intros s0 Sh St Sm Sq.
  unfold revealLoop. simpl.
  destruct (fetchHops (targetHost w)) as [|hop rest] eqn:HH; simpl.
  - destruct (finishTrace_frame taken
                {| mockHops := []; index := 0;
                   seen_targetHost := targetHost w |}
                s0 (cleared m) Sm (lookup_delete_eq _ _))
      as (_ & Fh & Ft & _ & Fq & Fm).
    exists (drawn [] (cleared m)). split; [exact Fm|]. left.
    rewrite Ft, Fq, Sq, Fh. simpl.
    split; [done|]. split; [done|]. right.
    apply pathOverlay_drawn_cleared.
  - exists (cleared m). split; [exact Sm|]. right. simpl.
    rewrite St, Sq, Sh. split; [done|].
    split; [apply pathOverlay_cleared|].
    eexists _, _. split; [reflexivity|]. simpl. split; [lia | done].
Qed.

Lemma Consistent_clickTraceRoute (w : State) :
  Consistent w → Consistent (clickTraceRoute taken fetchHops w).
Proof.
  intros Hc. unfold clickTraceRoute, traceDisabled.
  destruct (isTracing w) eqn:Ht; simpl; [done|].
  destruct (negb _); [done|]. by apply Consistent_executeTraceroute.
Qed.

Lemma Consistent_fireTimer (w : State) :
  Consistent w → Consistent (fireTimer taken w).
Proof.
  intros (m & Hm & Hcase). unfold fireTimer.
  destruct Hcase as [(Ht & Hq & Hov) | (Ht & Hov & due & k & Hq & Hi & Hh)].
  { rewrite Hq. exists m. split; [done|]. left. by rewrite Hq. }
  rewrite Hq. unfold resumeReveal. simpl.
  destruct (lookup_lt_is_Some_2 _ _ Hi) as [hop Hhop]. rewrite Hhop.
  unfold revealLoop. simpl.
  destruct (S (index k) <? length (mockHops k)) eqn:Hlt.
  - apply Nat.ltb_lt in Hlt.
    exists m. split; [done|]. right. simpl.
    split; [done|]. split; [done|].
    eexists _, _. split; [reflexivity|]. simpl. split; [done|].
    rewrite Hh. symmetry. by apply take_S_r.
  - destruct (finishTrace_frame taken
                {| mockHops := mockHops k; index := S (index k);
                   seen_targetHost := seen_targetHost k |}
                (appendHop hop
                   (set_clock (N.max (clock w) due) (set_timers [] w)))
                m Hm)
      as (_ & Fh & Ft' & _ & Fq & Fm).
    { unfold pathOverlay in Hov. by injection Hov as -> _ _. }
    exists (drawn (mockHops k) m). split; [exact Fm|]. left.
    rewrite Ft', Fq, Fh. simpl.
    split; [done|]. split; [done|]. right.
    by apply pathOverlay_drawn_on_clear.
Qed.

Lemma Consistent_animationFrame (w : State) :
  Consistent w → Consistent (animationFrame w).
Proof.
  intros Hc. unfold animationFrame.
  destruct (rotateCamera_fold_frame (frames w) (set_frames [] w))
    as (Ho & Ht & Hh & _ & Hq & _).
  by apply (Consistent_same_overlay w).
Qed.

Lemma Consistent_step (w w' : State) :
  Step taken fetchHops w w' → Consistent w → Consistent w'.
Proof.
  intros [v | v u Hidle | v | v] Hc.
  - by apply Consistent_clickTraceRoute.
  - by apply (Consistent_same_overlay u).
  - by apply Consistent_fireTimer.
  - by apply Consistent_animationFrame.
Qed.

End Invariant.

Lemma Consistent_ready : Consistent ready.
Proof.
  exists readyMap. split; [reflexivity|]. left.
  split; [reflexivity|]. split; [reflexivity|]. left. by vm_compute.
Qed.

(** X20. Driven through the trace button, the target input, the timers
    and the animation frames, in any order and any number, the component
    keeps overlay and session consistent: at rest either nothing is
    drawn and no hop is listed, or exactly the path of the listed hops is
    drawn; during a trace nothing is drawn, exactly one timer is pending
    and the listed hops are the ones revealed so far.  So the overlay
    never shows a partial hop list. *)
Theorem overlay_consistent_under_ui_steps taken
    (fetchHops : string → list NetworkHop) (w w' : State) :
  Consistent w →
  rtc (Step taken fetchHops) w w' →
  Consistent w'.
Proof.
  intros Hc Hsteps. induction Hsteps as [w | w v w' Hstep _ IH]; [done|].
  apply IH. by apply (Consistent_step taken fetchHops w).
Qed.

Lemma overlay_consistent_under_ui_steps_witness :
  Consistent
    (fireTimer mapboxgl.Raises
       (animationFrame
          (fireTimer mapboxgl.Raises
             (clickTraceRoute mapboxgl.Raises mockTraceroute
                (set_targetHost "example.org" ready))))).
Proof.
  apply (overlay_consistent_under_ui_steps mapboxgl.Raises mockTraceroute
           ready).
  - exact Consistent_ready.
  - eapply rtc_l; [by apply (StepType _ _ "example.org") |].
    eapply rtc_l; [apply StepClick |].
    eapply rtc_l; [apply StepTimer |].
    eapply rtc_l; [apply StepFrame |].
    eapply rtc_l; [apply StepTimer |].
    apply rtc_refl.
Defined.

Lemma fire_the_pending_timer taken (w : State) (due : N) (k : Reveal)
    (hop : NetworkHop) :
  timers w = [(due, k)] →
  mockHops k !! index k = Some hop →
  fireTimer taken w
  = revealLoop taken
      {| mockHops := take (S (index k)) (mockHops k)
                     ++ drop (S (index k)) (mockHops k);
         index := length (take (S (index k)) (mockHops k));
         seen_targetHost := seen_targetHost k |}
      (appendHop hop (set_clock (N.max (clock w) due) (set_timers [] w))).
Proof.
  intros Hq Hhop. unfold fireTimer. rewrite Hq.
  unfold resumeReveal. rewrite Hhop.
  pose proof (lookup_lt_Some _ _ _ Hhop) as Hlt.
  by rewrite take_drop, length_take, Nat.min_l by lia.
Qed.

(** X21. A trace in progress always completes: from any consistent state
    that is tracing, firing as many timers as hops remain to be revealed
    ends with the tracing flag cleared, no timer pending, the full hop
    list published and exactly its path drawn; after fewer timers the
    trace is still in progress. *)
Theorem trace_in_progress_completes taken (w : State) :
  Consistent w →
  isTracing w = true →
  ∃ due k,
    timers w = [(due, k)]
    ∧ isTracing (fireTimers taken (length (mockHops k) - index k) w) = false
    ∧ timers (fireTimers taken (length (mockHops k) - index k) w) = []
    ∧ hops (fireTimers taken (length (mockHops k) - index k) w) = mockHops k
    ∧ pathOverlay <$>
        map_current (fireTimers taken (length (mockHops k) - index k) w)
      = Some (Some (coordinatesOf (mockHops k)), Some pathLineLayer,
              hopMarkers (mockHops k))
    ∧ (∀ j, j < length (mockHops k) - index k →
         isTracing (fireTimers taken j w) = true).
Proof.
  intros (m & Hm & Hcase) Ht.
  destruct Hcase as [(Hf & _) | (_ & Hov & due & k & Hq & Hi & Hh)];
    [congruence|].
  exists due, k. split; [exact Hq|].
  destruct (lookup_lt_is_Some_2 _ _ Hi) as [hop Hhop].
  pose proof (fire_the_pending_timer taken w due k hop Hq Hhop) as Hfire.
  set (w1 := appendHop hop
               (set_clock (N.max (clock w) due) (set_timers [] w))) in *.
  set (pre := take (S (index k)) (mockHops k)) in *.
  set (rest := drop (S (index k)) (mockHops k)) in *.
  assert (length rest = length (mockHops k) - S (index k)) as Hrest
    by apply length_drop.
  assert (pre ++ rest = mockHops k) as Hall by apply take_drop.
  assert (timers w1 = []) as Hq1 by reflexivity.
  assert (map_current w1 = Some m) as Hm1 by exact Hm.
  assert (isTracing w1 = true) as Ht1 by exact Ht.
  replace (length (mockHops k) - index k) with (S (length rest)) by lia.
  assert (mapboxgl.sources m !! "network-path" = None) as Hs.
  { unfold pathOverlay in Hov. by injection Hov as -> _ _. }
  split; [|split; [|split; [|split]]].
  1-4: simpl fireTimers; rewrite Hfire;
       rewrite (reveal_all taken (seen_targetHost k) rest pre w1 Hq1);
       destruct (revealed_frame rest w1) as (_ & _ & _ & _ & Rm & Rq & _);
       rewrite Hm1 in Rm; rewrite Hq1 in Rq;
       destruct (finishTrace_frame taken
                   {| mockHops := pre ++ rest; index := length (pre ++ rest);
                      seen_targetHost := seen_targetHost k |}
                   (revealed rest w1) m Rm Hs)
         as (_ & Fh & Ft & _ & Fq & Fm);
       cbn [mockHops] in Fh, Fm; rewrite Hall in Fh, Fm, Ft, Fq;
       rewrite Hall.
  - exact Ft.
  - by rewrite Fq.
  - exact Fh.
  - rewrite Fm. simpl. by rewrite pathOverlay_drawn_on_clear.
  - intros [|j] Hj; [exact Ht|].
    simpl fireTimers. rewrite Hfire.
    pose proof (reveal_some taken (seen_targetHost k)
                  (take j rest) (drop j rest) pre w1 Hq1) as Hsome.
    rewrite take_drop, length_take, Nat.min_l in Hsome by lia.
    rewrite Hsome.
    + destruct (revealed_frame (take j rest) w1) as (_ & _ & _ & Rt & _).
      simpl. by rewrite Rt.
    + intros Hnil. apply (f_equal length) in Hnil.
      rewrite length_drop in Hnil. simpl in Hnil. lia.
Qed.

Lemma Consistent_tracing : Consistent tracing.
Proof.
  exists (cleared readyMap). split; [by vm_compute|]. right.
  split; [by vm_compute|]. split; [by vm_compute|].
  exists 1000%N,
    {| mockHops := mockTraceroute "google.com"; index := 0;
       seen_targetHost := "google.com" |}.
  split; [by vm_compute|]. split; [vm_compute; lia | by vm_compute].
Qed.

Lemma trace_in_progress_completes_witness :
  ∃ due k,
    timers tracing = [(due, k)]
    ∧ isTracing
        (fireTimers mapboxgl.Raises (length (mockHops k) - index k) tracing)
      = false
    ∧ hops
        (fireTimers mapboxgl.Raises (length (mockHops k) - index k) tracing)
      = mockHops k.
Proof.
  destruct (trace_in_progress_completes mapboxgl.Raises tracing)
    as (due & k & Hq & Ht & _ & Hh & _);
    [exact Consistent_tracing | by vm_compute |].
  exists due, k. split; [exact Hq | split; [exact Ht | exact Hh]].
Defined.

(** ** Camera loops add up *)

Lemma rotateCamera_fold_live (cbs : list RotateCamera) (v : State)
    (m : mapboxgl.Map) :
  Forall (λ cb, seen_isTracing cb = false) cbs →
  map_current v = Some m →
  frames (foldl (λ w cb, rotateCamera cb w) v cbs) = frames v ++ cbs
  ∧ ∃ m' eases,
      map_current (foldl (λ w cb, rotateCamera cb w) v cbs) = Some m'
      ∧ mapboxgl.camera m' = mapboxgl.camera m ++ eases
      ∧ length eases = length cbs
      ∧ Forall (λ c, ∃ target, c = mapboxgl.EaseTo target 100) eases.
Proof.
  revert v m. induction cbs as [|cb cbs IH]; intros v m Hall Hm.
  - simpl. rewrite app_nil_r. split; [done|]. exists m, [].
    rewrite app_nil_r. by repeat split.
  - apply Forall_cons in Hall as [Hcb Hall]. simpl foldl.
    assert (rotateCamera cb v
            = requestAnimationFrame cb
                (set_map (Some (mapboxgl.easeTo
                   (fst (mapboxgl.center m) + 0.1, snd (mapboxgl.center m))%Q
                   100 m)) v)) as ->.
    { unfold rotateCamera. by rewrite Hm, Hcb. }
    destruct (IH (requestAnimationFrame cb
                    (set_map (Some (mapboxgl.easeTo
                       (fst (mapboxgl.center m) + 0.1,
                        snd (mapboxgl.center m))%Q 100 m)) v))
                 (mapboxgl.easeTo
                    (fst (mapboxgl.center m) + 0.1,
                     snd (mapboxgl.center m))%Q 100 m)
                 Hall eq_refl)
      as (Hf & m' & eases & Hm' & Hcam & Hlen & Hdur).
    split; [rewrite Hf; simpl; by rewrite <- app_assoc|].
    exists m', (mapboxgl.EaseTo
                  (fst (mapboxgl.center m) + 0.1, snd (mapboxgl.center m))%Q
                  100 :: eases).
    split; [exact Hm'|]. simpl in Hcam.
    split; [by rewrite Hcam, <- app_assoc|].
    split; [simpl; lia|].
    apply Forall_cons. split; [by eexists | exact Hdur].
Qed.

(** X22. Camera loops are never cancelled, so they add up: with a map and
    [k] loops pending, none of which captured a running trace, one
    animation frame issues [k] camera commands, each an ease of 100 ms,
    and leaves the same [k] loops pending. *)
Theorem camera_loops_add_up (w : State) (m : mapboxgl.Map) :
  Forall (λ cb, seen_isTracing cb = false) (frames w) →
  map_current w = Some m →
  frames (animationFrame w) = frames w
  ∧ ∃ m' eases,
      map_current (animationFrame w) = Some m'
      ∧ mapboxgl.camera m' = mapboxgl.camera m ++ eases
      ∧ length eases = length (frames w)
      ∧ Forall (λ c, ∃ target, c = mapboxgl.EaseTo target 100) eases.
Proof.
  intros Hall Hm. unfold animationFrame.
  apply (rotateCamera_fold_live (frames w) (set_frames [] w) m Hall Hm).
Qed.

Lemma camera_loops_add_up_witness :
  frames (animationFrame (initializeMap "pk.again" ready))
  = [{| seen_isTracing := false |}; {| seen_isTracing := false |}]
  ∧ ∃ m' eases,
      map_current (animationFrame (initializeMap "pk.again" ready)) = Some m'
      ∧ mapboxgl.camera m' = mapboxgl.camera readyMap ++ eases
      ∧ length eases = 2.
Proof.
  destruct (camera_loops_add_up (initializeMap "pk.again" ready) readyMap)
    as (Hf & m' & eases & Hm' & Hcam & Hlen & _);
    [repeat constructor | reflexivity |].
  split; [exact Hf|]. exists m', eases.
  split; [exact Hm' | split; [exact Hcam | exact Hlen]].
Defined.

(** ** The two views *)

Lemma popup_headings (hopData : list NetworkHop) :
  (λ mk, mapboxgl.heading (mapboxgl.popup mk)) <$> hopMarkers hopData
  = hop_id <$> hopData
  ∧ (λ mk, mapboxgl.span_latency (mapboxgl.popup mk)) <$> hopMarkers hopData
    = latency <$> hopData.
Proof.
  unfold hopMarkers. generalize (length hopData). intros n.
  split; apply list_eq; intros i;
    rewrite !list_lookup_fmap, list_lookup_imap; by destruct (hopData !! i).
Qed.

(** X24. At rest after a trace, map and panel show the same hops: in a
    consistent state that is not tracing and lists at least one hop, the
    hop markers on the map and the cards of the panel are equally many
    and carry, in the same order, the same hop numbers and the same
    latencies. *)
Theorem map_and_panel_show_same_hops (mapboxToken : option string)
    (w : State) :
  Consistent w →
  isTracing w = false →
  hops w ≠ [] →
  ∃ m cards,
    map_current w = Some m
    ∧ hopPanel (render mapboxToken w) = Some cards
    ∧ length cards = length (hopMarkerElements m)
    ∧ card_hop <$> cards
      = (λ mk, mapboxgl.heading (mapboxgl.popup mk)) <$> hopMarkerElements m
    ∧ card_latency <$> cards
      = (λ mk, mapboxgl.span_latency (mapboxgl.popup mk))
          <$> hopMarkerElements m.
Proof.
  intros (m & Hm & Hcase) Ht Hne.
  destruct Hcase as [(_ & _ & [[_ Hnil] | Hov]) | (Htr & _)];
    [done | | congruence].
  exists m, (hopCard <$> hops w). split; [exact Hm|].
  assert (hopMarkerElements m = hopMarkers (hops w)) as ->.
  { unfold pathOverlay in Hov. by injection Hov as _ _ ->. }
  destruct (popup_headings (hops w)) as [-> ->].
  split; [|split; [|split]].
  - unfold render. simpl. by destruct (hops w).
  - unfold hopMarkers. by rewrite length_fmap, length_imap.
  - by rewrite <- list_fmap_compose.
  - by rewrite <- list_fmap_compose.
Qed.

Lemma Consistent_traced : Consistent traced.
Proof.
  exists tracedMap. split; [by vm_compute|]. left.
  split; [by vm_compute|]. split; [by vm_compute|]. right. by vm_compute.
Qed.

Lemma map_and_panel_show_same_hops_witness :
  ∃ m cards,
    map_current traced = Some m
    ∧ hopPanel (render None traced) = Some cards
    ∧ length cards = length (hopMarkerElements m)
    ∧ card_hop <$> cards
      = (λ mk, mapboxgl.heading (mapboxgl.popup mk)) <$> hopMarkerElements m.
Proof.
  destruct (map_and_panel_show_same_hops None traced)
    as (m & cards & Hm & Hp & Hl & Hc & _);
    [exact Consistent_traced | by vm_compute | by vm_compute |].
  exists m, cards.
  split; [exact Hm | split; [exact Hp | split; [exact Hl | exact Hc]]].
Defined.

Lemma render_form_xor_controls_witness :
  tokenForm (render None traced) = negb (traceControls (render None traced))
  ∧ card_hop <$> (hopCard <$> mockTraceroute "google.com")
    = hop_id <$> hops traced.
Proof.
  destruct (render_form_xor_controls None traced) as (Hx & _ & _ & Hc).
  split; [exact Hx|].
  destruct (Hc (hopCard <$> mockTraceroute "google.com")) as [Hid _];
    [by vm_compute | exact Hid].
Defined.

(** ** No draw is rejected from the controls *)

Section Quiet.

Variable taken : mapboxgl.OnTakenId.
Variable fetchHops : string → list NetworkHop.

Lemma quiet_executeTraceroute (w : State) :
  isTracing w = false →
  Consistent w →
  ∃ added,
    journal (executeTraceroute taken fetchHops w) = journal w ++ added
    ∧ Forall (λ te, rejected (snd te) = false) added.
Proof.
  intros Hidle (m & Hm & Hcase).
  rewrite (executeTraceroute_started taken fetchHops w m Hm).
  destruct (started_frame w m Hm) as (Sj & _ & _ & _ & Sm & _ & _).
  revert Sj Sm. generalize (started w). intros s0 Sj Sm.
  unfold revealLoop. simpl.
  destruct (fetchHops (targetHost w)) as [|hop rest] eqn:HH; simpl.
  - destruct (finishTrace_frame taken
                {| mockHops := []; index := 0;
                   seen_targetHost := targetHost w |}
                s0 (cleared m) Sm (lookup_delete_eq _ _))
      as (Fj & _).
    rewrite Fj, Sj, <- app_assoc. eexists. split; [reflexivity|].
    by repeat constructor.
  - rewrite Sj, <- app_assoc. eexists. split; [reflexivity|].
    by repeat constructor.
Qed.

Lemma quiet_fireTimer (w : State) :
  Consistent w →
  ∃ added,
    journal (fireTimer taken w) = journal w ++ added
    ∧ Forall (λ te, rejected (snd te) = false) added.
Proof.
  intros (m & Hm & Hcase). unfold fireTimer.
  destruct Hcase as [(Ht & Hq & Hov) | (Ht & Hov & due & k & Hq & Hi & Hh)].
  { rewrite Hq. exists []. by rewrite app_nil_r. }
  rewrite Hq. unfold resumeReveal. simpl.
  destruct (lookup_lt_is_Some_2 _ _ Hi) as [hop Hhop]. rewrite Hhop.
  unfold revealLoop. simpl.
  destruct (S (index k) <? length (mockHops k)) eqn:Hlt.
  - simpl. rewrite <- app_assoc. eexists. split; [reflexivity|].
    by repeat constructor.
  - destruct (finishTrace_frame taken
                {| mockHops := mockHops k; index := S (index k);
                   seen_targetHost := seen_targetHost k |}
                (appendHop hop
                   (set_clock (N.max (clock w) due) (set_timers [] w)))
                m Hm)
      as (Fj & _).
    { unfold pathOverlay in Hov. by injection Hov as -> _ _. }
    rewrite Fj. simpl. rewrite <- app_assoc. eexists.
    split; [reflexivity|]. by repeat constructor.
Qed.

Lemma quiet_step (w w' : State) :
  Step taken fetchHops w w' →
  Consistent w →
  ∃ added,
    journal w' = journal w ++ added
    ∧ Forall (λ te, rejected (snd te) = false) added.
Proof.
  intros [v | v u Hidle | v | v] Hc.
  - unfold clickTraceRoute, traceDisabled.
    destruct (isTracing v) eqn:Ht; simpl;
      [exists []; by rewrite app_nil_r|].
    destruct (negb _); [exists []; by rewrite app_nil_r|].
    by apply quiet_executeTraceroute.
  - exists []. by rewrite app_nil_r.
  - by apply quiet_fireTimer.
  - exists []. rewrite app_nil_r. split; [|done].
    unfold animationFrame.
    by destruct (rotateCamera_fold_frame (frames v) (set_frames [] v))
      as (_ & _ & _ & _ & _ & _ & ->).
Qed.

End Quiet.

(** X25. From the controls no draw is ever rejected: starting from a
    consistent state, whatever the engine does with a taken source id,
    any sequence of button clicks, target edits, timers and animation
    frames only appends to the journal, and none of the entries it
    appends records a draw that threw. *)
Theorem no_draw_rejected_under_ui_steps taken
    (fetchHops : string → list NetworkHop) (w w' : State) :
  Consistent w →
  rtc (Step taken fetchHops) w w' →
  ∃ added,
    journal w' = journal w ++ added
    ∧ Forall (λ te, rejected (snd te) = false) added.
Proof.
  intros Hc Hsteps. induction Hsteps as [w | w v w' Hstep _ IH].
  - exists []. by rewrite app_nil_r.
  - destruct (quiet_step taken fetchHops w v Hstep Hc) as (a1 & Hj1 & Hq1).
    destruct (IH (Consistent_step taken fetchHops w v Hstep Hc))
      as (a2 & Hj2 & Hq2).
    exists (a1 ++ a2). rewrite Hj2, Hj1, <- app_assoc.
    split; [done | by apply Forall_app].
Qed.

Lemma no_draw_rejected_under_ui_steps_witness :
  ∃ added,
    journal (fireTimer mapboxgl.Raises
               (clickTraceRoute mapboxgl.Raises mockTraceroute ready))
    = journal ready ++ added
    ∧ Forall (λ te, rejected (snd te) = false) added.
Proof.
  apply (no_draw_rejected_under_ui_steps mapboxgl.Raises mockTraceroute
           ready).
  - exact Consistent_ready.
  - eapply rtc_l; [apply StepClick |].
    eapply rtc_l; [apply StepTimer |].
    apply rtc_refl.
Defined.
